(** * Subtrack: the subscription tracker of [src/code.jsx]

    A shallow embedding of the React component [App]: its state, the
    handlers that drive it ([handleSubmit], [startEdit], [handleDelete],
    [generateGeminiReport], the cancel button, the [onSnapshot] callback) and
    the parts of the JavaScript runtime and of the document store that those
    handlers rely on. The auth listener, the remaining conditions of the
    view and the component as a machine driven by events follow, with what
    every run of that machine keeps.

    JavaScript numbers are IEEE 754 binary64 values; they are modelled by the
    kernel's primitive floats, so that every arithmetic step of the code
    ([+=], [/ 12], [* 12]) is the very operation the program performs. *)

From Stdlib Require Import ZArith String Ascii List Bool.
From Stdlib Require Import PrimFloat FloatOps SpecFloat FloatAxioms.
From stdpp Require Import gmap strings list pretty.

Local Open Scope Z_scope.

(** ** The JavaScript runtime *)

Module Js.

(** [ToBoolean] on a string: only the empty string is falsy. *)
Definition truthy_string (s : string) : bool := negb (String.eqb s "").

(** [ToBoolean] on a number: [+0], [-0] and [NaN] are falsy. *)
Definition truthy_number (x : float) : bool :=
  negb (PrimFloat.eqb x 0%float || PrimFloat.is_nan x).

(** The two kinds of value that the cost field of the form holds: the text
    of the [<input>] ([e.target.value]) or, after [startEdit], the number
    stored in the record. *)
Inductive value : Type :=
| VStr (s : string)
| VNum (x : float).

Definition truthy (v : value) : bool :=
  match v with
  | VStr s => truthy_string s
  | VNum x => truthy_number x
  end.

(** *** [parseFloat] *)

Definition is_digit (c : ascii) : bool :=
  let n := Z.of_N (N_of_ascii c) in (48 <=? n) && (n <=? 57).

Definition digit_value (c : ascii) : Z := Z.of_N (N_of_ascii c) - 48.

(** Reads the longest run of decimal digits at the head of [s], pushing
    them onto [acc]; returns the number read, how many digits it has and
    the text after them. *)
Fixpoint scan_digits (acc count : Z) (s : string) : Z * Z * string :=
  match s with
  | String c s' =>
      if is_digit c then scan_digits (10 * acc + digit_value c) (count + 1) s'
      else (acc, count, s)
  | EmptyString => (acc, count, s)
  end.

(** [strip p s] is the text after the prefix [p] of [s], when [s] has it. *)
Fixpoint strip (p s : string) : option string :=
  match p, s with
  | EmptyString, _ => Some s
  | String a p', String b s' => if Ascii.eqb a b then strip p' s' else None
  | String _ _, EmptyString => None
  end.

(** The white space and line terminators that [TrimString] removes, in
    their UTF-8 encoding (strings are sequences of bytes here). *)
Definition white_space : list string :=
  map (fun cs => string_of_list_ascii (map (fun n => ascii_of_N n) cs))
    [ [9]; [10]; [11]; [12]; [13]; [32]; [194; 160]; [225; 154; 128];
      [226; 128; 128]; [226; 128; 129]; [226; 128; 130]; [226; 128; 131];
      [226; 128; 132]; [226; 128; 133]; [226; 128; 134]; [226; 128; 135];
      [226; 128; 136]; [226; 128; 137]; [226; 128; 138]; [226; 128; 168];
      [226; 128; 169]; [226; 128; 175]; [226; 129; 159]; [227; 128; 128];
      [239; 187; 191] ]%N.

Fixpoint strip_first (ps : list string) (s : string) : option string :=
  match ps with
  | [] => None
  | p :: ps' =>
      match strip p s with
      | Some r => Some r
      | None => strip_first ps' s
      end
  end.

(** [TrimString(s, start)]; the fuel is the length of the text. *)
Fixpoint trim_start_fuel (fuel : nat) (s : string) : string :=
  match fuel with
  | O => s
  | S fuel' =>
      match strip_first white_space s with
      | Some r => trim_start_fuel fuel' r
      | None => s
      end
  end.

Definition trim_start (s : string) : string :=
  trim_start_fuel (String.length s) s.

Definition signed_zero (neg : bool) : float :=
  if neg then (-0)%float else 0%float.

Definition signed_infinity (neg : bool) : float :=
  if neg then neg_infinity else infinity.

(** The Number value for the positive rational [p / q]: the binary64 value
    nearest to it, ties to the even significand, overflow to infinity. *)
Definition number_value (neg : bool) (p q : Z) : float :=
  let l := Z.log2 p - Z.log2 q in
  let reached := if 0 <=? l then q * 2 ^ l <=? p else q <=? p * 2 ^ (- l) in
  let lg := if reached then l else l - 1 in
  let e := Z.max (lg - 52) (-1074) in
  let num := if 0 <=? e then p else p * 2 ^ (- e) in
  let den := if 0 <=? e then q * 2 ^ e else q in
  let m0 := num / den in
  let r := num mod den in
  let m := if (den <? 2 * r) || ((den =? 2 * r) && Z.odd m0) then m0 + 1 else m0 in
  let me := if m =? 2 ^ 53 then (2 ^ 52, e + 1) else (m, e) in
  if fst me =? 0 then signed_zero neg
  else if 971 <? snd me then signed_infinity neg
  else SF2Prim (S754_finite neg (Z.to_pos (fst me)) (snd me)).

(** The exponent part [e±ddd] at the head of [s], when there is one. *)
Definition scan_exponent (s : string) : Z :=
  match s with
  | String c s' =>
      if Ascii.eqb c "e" || Ascii.eqb c "E" then
        let '(neg, s'') :=
          match s' with
          | String "-" t => (true, t)
          | String "+" t => (false, t)
          | _ => (false, s')
          end in
        let '(v, n, _) := scan_digits 0 0 s'' in
        if n =? 0 then 0 else if neg then - v else v
      else 0
  | EmptyString => 0
  end.

(** [parseFloat] on a string: the value of the longest prefix of the
    trimmed text that is a [StrDecimalLiteral], [NaN] when there is none. *)
Definition parseFloat_string (s : string) : float :=
  let t := trim_start s in
  let '(neg, t) :=
    match t with
    | String "-" t' => (true, t')
    | String "+" t' => (false, t')
    | _ => (false, t)
    end in
  match strip "Infinity" t with
  | Some _ => signed_infinity neg
  | None =>
      let '(i, ni, r1) := scan_digits 0 0 t in
      let '(m, nf, r2) :=
        match r1 with
        | String "." r => scan_digits i 0 r
        | _ => (i, 0, r1)
        end in
      if (ni =? 0) && (nf =? 0) then nan
      else if m =? 0 then signed_zero neg
      else
        let e := scan_exponent r2 - nf in
        if 0 <=? e then number_value neg (m * 10 ^ e) 1
        else number_value neg m (10 ^ (- e))
  end.

(** [parseFloat(v)] first converts [v] to a string. For a number that
    conversion prints the shortest decimal that reads back as the same
    number, so the result is the number itself, except that [-0] prints
    as ["0"]. *)
Definition parseFloat (v : value) : float :=
  match v with
  | VStr s => parseFloat_string s
  | VNum x => if PrimFloat.eqb x 0%float then 0%float else x
  end.

(** *** [Number.prototype.toFixed] *)

Fixpoint zeros (n : nat) : string :=
  match n with
  | O => ""
  | S n' => String "0" (zeros n')
  end.

(** [x.toFixed(f)] for [0 <= f]: [n] is the integer nearest to [x * 10^f]
    (the larger one on a tie), printed with [f] digits after the point. At
    [10^21] and above the runtime falls back to [Number::toString], which
    is not modelled: the result is [None] there. *)
Definition toFixed (x : float) (f : nat) : option string :=
  match Prim2SF x with
  | S754_nan => Some "NaN"%string
  | S754_infinity s => Some (if s then "-Infinity" else "Infinity")%string
  | S754_zero _ => Some (if f is O then "0" else "0." +:+ zeros f)%string
  | S754_finite s m e =>
      let num := if 0 <=? e then Z.pos m * 2 ^ e else Z.pos m in
      let den := if 0 <=? e then 1 else 2 ^ (- e) in
      if 10 ^ 21 * den <=? num then None
      else
        let n := (2 * 10 ^ Z.of_nat f * num + den) / (2 * den) in
        let digits : string := pretty (Z.to_N n) in
        let digits := (zeros (S f - String.length digits) +:+ digits)%string in
        let k := String.length digits in
        let a := substring 0 (k - f) digits in
        let b := substring (k - f) f digits in
        Some ((if s then "-" else "") +:+ a +:+ (if f is O then "" else "." +:+ b))%string
  end.

End Js.

(** ** The document store

    The collection [artifacts/{appId}/users/{userId}/subscriptions] of the
    signed-in user, as the application uses it: [addDoc], [updateDoc] and
    [deleteDoc] on documents that carry the four fields [handleSubmit]
    writes. The store is the external service; what is modelled is its
    contract. *)

Module Firestore.

Record docData : Type := {
  name : string;
  cost : float;
  cycle : string;
  createdAt : Z   (* a [Date], in milliseconds *)
}.

Inductive write : Type :=
| AddDoc (data : docData)
| UpdateDoc (id : string) (data : docData)
| DeleteDoc (id : string).

(** What the service decides for one request: whether it goes through
    (the [await] resolves) or is rejected, and the identifier a created
    document receives. *)
Record reply : Type := {
  accepted : bool;
  newId : string
}.

(** The effect of a request on the collection; [None] when the promise
    rejects. [updateDoc] sets every field named in its payload and rejects
    when the document does not exist; [deleteDoc] of a missing document
    succeeds. *)
Definition exec (r : reply) (op : write) (docs : gmap string docData)
  : option (gmap string docData) :=
  if negb (accepted r) then None
  else
    match op with
    | AddDoc data => Some (<[newId r := data]> docs)
    | UpdateDoc id data =>
        match docs !! id with
        | Some _ => Some (<[id := data]> docs)
        | None => None
        end
    | DeleteDoc id => Some (delete id docs)
    end.

End Firestore.

(** ** The response of the text-generation endpoint *)

Module Http.

#[local] Set Warnings "-register-all".

(** A parsed JSON text, as [response.json()] resolves to. [JObj] lists the
    properties of the object, each key once. *)
Inductive json : Type :=
| JNull
| JBool (b : bool)
| JNum (x : float)
| JStr (s : string)
| JArr (items : list json)
| JObj (fields : list (string * json)).

Fixpoint assoc (key : string) (fields : list (string * json)) : option json :=
  match fields with
  | [] => None
  | (k, v) :: rest => if String.eqb k key then Some v else assoc key rest
  end.

(** [v.key] for a key that is neither an array index nor a name the
    built-in prototypes define (the four names of the path below are
    such): an own property of an object, [undefined] ([None]) on anything
    else. *)
Definition member (key : string) (v : json) : option json :=
  match v with
  | JObj fields => assoc key fields
  | _ => None
  end.

(** [v[0]]: the first element of an array, the property ["0"] of an
    object, the first character of a string. *)
Definition first (v : json) : option json :=
  match v with
  | JArr (x :: _) => Some x
  | JObj fields => assoc "0" fields
  | JStr (String c _) => Some (JStr (String c EmptyString))
  | _ => None
  end.

(** Optional chaining [o?.p]: [undefined] when [o] is [undefined] or
    [null], the property otherwise. *)
Definition chain (get : json -> option json) (o : option json) : option json :=
  match o with
  | None | Some JNull => None
  | Some v => get v
  end.

(** [result?.candidates?.[0]?.content?.parts?.[0]?.text] *)
Definition text_of (result : json) : option json :=
  chain (member "text")
    (chain first
       (chain (member "parts")
          (chain (member "content")
             (chain first
                (chain (member "candidates") (Some result)))))).

(** [ToBoolean] on the value the chain produced. *)
Definition truthy (o : option json) : bool :=
  match o with
  | None | Some JNull => false
  | Some (JBool b) => b
  | Some (JNum x) => Js.truthy_number x
  | Some (JStr s) => Js.truthy_string s
  | Some (JArr _) | Some (JObj _) => true
  end.

Record response : Type := {
  status : Z;
  body : option json   (* [None]: the body is not JSON, [json()] rejects *)
}.

(** [response.ok]: the status is in the range 200 to 299. *)
Definition ok (r : response) : bool := (200 <=? status r) && (status r <=? 299).

End Http.

(** ** The component *)

Module App.

(** An element of [subscriptionsList]: [{ id: doc.id, ...doc.data() }]. *)
Record subscription : Type := {
  id : string;
  name : string;
  cost : float;
  cycle : string;
  createdAt : Z
}.

(** The [useState] cells of [App]. *)
Record state : Type := {
  userId : option string;
  loading : bool;
  error : string;
  message : string;
  isAuthReady : bool;
  subscriptions : list subscription;
  totalMonthlyCost : float;
  totalYearlyCost : float;
  formName : string;
  formCost : Js.value;
  formCycle : string;
  editingId : option string;
  geminiResponse : option Http.json
}.

(** The state of the first render. *)
Definition initialState : state := {|
  userId := None;
  loading := false;
  error := "";
  message := "";
  isAuthReady := false;
  subscriptions := [];
  totalMonthlyCost := 0%float;
  totalYearlyCost := 0%float;
  formName := "";
  formCost := Js.VStr "";
  formCycle := "monthly";
  editingId := None;
  geminiResponse := None
|}.

(** The setters that the handlers call. *)

Definition setLoading (v : bool) (st : state) : state :=
  {| userId := userId st; loading := v; error := error st; message := message st;
     isAuthReady := isAuthReady st; subscriptions := subscriptions st;
     totalMonthlyCost := totalMonthlyCost st; totalYearlyCost := totalYearlyCost st;
     formName := formName st; formCost := formCost st; formCycle := formCycle st;
     editingId := editingId st; geminiResponse := geminiResponse st |}.

Definition setError (v : string) (st : state) : state :=
  {| userId := userId st; loading := loading st; error := v; message := message st;
     isAuthReady := isAuthReady st; subscriptions := subscriptions st;
     totalMonthlyCost := totalMonthlyCost st; totalYearlyCost := totalYearlyCost st;
     formName := formName st; formCost := formCost st; formCycle := formCycle st;
     editingId := editingId st; geminiResponse := geminiResponse st |}.

Definition setMessage (v : string) (st : state) : state :=
  {| userId := userId st; loading := loading st; error := error st; message := v;
     isAuthReady := isAuthReady st; subscriptions := subscriptions st;
     totalMonthlyCost := totalMonthlyCost st; totalYearlyCost := totalYearlyCost st;
     formName := formName st; formCost := formCost st; formCycle := formCycle st;
     editingId := editingId st; geminiResponse := geminiResponse st |}.

Definition setSubscriptions (v : list subscription) (st : state) : state :=
  {| userId := userId st; loading := loading st; error := error st; message := message st;
     isAuthReady := isAuthReady st; subscriptions := v;
     totalMonthlyCost := totalMonthlyCost st; totalYearlyCost := totalYearlyCost st;
     formName := formName st; formCost := formCost st; formCycle := formCycle st;
     editingId := editingId st; geminiResponse := geminiResponse st |}.

Definition setTotalMonthlyCost (v : float) (st : state) : state :=
  {| userId := userId st; loading := loading st; error := error st; message := message st;
     isAuthReady := isAuthReady st; subscriptions := subscriptions st;
     totalMonthlyCost := v; totalYearlyCost := totalYearlyCost st;
     formName := formName st; formCost := formCost st; formCycle := formCycle st;
     editingId := editingId st; geminiResponse := geminiResponse st |}.

Definition setTotalYearlyCost (v : float) (st : state) : state :=
  {| userId := userId st; loading := loading st; error := error st; message := message st;
     isAuthReady := isAuthReady st; subscriptions := subscriptions st;
     totalMonthlyCost := totalMonthlyCost st; totalYearlyCost := v;
     formName := formName st; formCost := formCost st; formCycle := formCycle st;
     editingId := editingId st; geminiResponse := geminiResponse st |}.

Definition setFormName (v : string) (st : state) : state :=
  {| userId := userId st; loading := loading st; error := error st; message := message st;
     isAuthReady := isAuthReady st; subscriptions := subscriptions st;
     totalMonthlyCost := totalMonthlyCost st; totalYearlyCost := totalYearlyCost st;
     formName := v; formCost := formCost st; formCycle := formCycle st;
     editingId := editingId st; geminiResponse := geminiResponse st |}.

Definition setFormCost (v : Js.value) (st : state) : state :=
  {| userId := userId st; loading := loading st; error := error st; message := message st;
     isAuthReady := isAuthReady st; subscriptions := subscriptions st;
     totalMonthlyCost := totalMonthlyCost st; totalYearlyCost := totalYearlyCost st;
     formName := formName st; formCost := v; formCycle := formCycle st;
     editingId := editingId st; geminiResponse := geminiResponse st |}.

Definition setFormCycle (v : string) (st : state) : state :=
  {| userId := userId st; loading := loading st; error := error st; message := message st;
     isAuthReady := isAuthReady st; subscriptions := subscriptions st;
     totalMonthlyCost := totalMonthlyCost st; totalYearlyCost := totalYearlyCost st;
     formName := formName st; formCost := formCost st; formCycle := v;
     editingId := editingId st; geminiResponse := geminiResponse st |}.

Definition setEditingId (v : option string) (st : state) : state :=
  {| userId := userId st; loading := loading st; error := error st; message := message st;
     isAuthReady := isAuthReady st; subscriptions := subscriptions st;
     totalMonthlyCost := totalMonthlyCost st; totalYearlyCost := totalYearlyCost st;
     formName := formName st; formCost := formCost st; formCycle := formCycle st;
     editingId := v; geminiResponse := geminiResponse st |}.

Definition setGeminiResponse (v : option Http.json) (st : state) : state :=
  {| userId := userId st; loading := loading st; error := error st; message := message st;
     isAuthReady := isAuthReady st; subscriptions := subscriptions st;
     totalMonthlyCost := totalMonthlyCost st; totalYearlyCost := totalYearlyCost st;
     formName := formName st; formCost := formCost st; formCycle := formCycle st;
     editingId := editingId st; geminiResponse := v |}.

(** *** The snapshot listener and the totals *)

(** The body of [subscriptionsList.forEach], on the two running totals
    [(calculatedMonthlyTotal, calculatedYearlyTotal)]. *)
Definition forEach_body (totals : float * float) (sub : subscription) : float * float :=
  let monthlyCost := cost sub in
  let yearlyCost := cost sub in
  let '(monthlyCost, yearlyCost) :=
    if String.eqb (cycle sub) "yearly" then ((cost sub / 12)%float, yearlyCost)
    else if String.eqb (cycle sub) "monthly" then (monthlyCost, (cost sub * 12)%float)
    else (monthlyCost, yearlyCost) in
  ((fst totals + monthlyCost)%float, (snd totals + yearlyCost)%float).

(** Both totals start at [0] and the loop visits the list in order. *)
Definition calculatedTotals (subscriptionsList : list subscription) : float * float :=
  fold_left forEach_body subscriptionsList (0%float, 0%float).

(** The success callback of [onSnapshot], given the list built from
    [snapshot.docs]. *)
Definition onSnapshot (subscriptionsList : list subscription) (st : state) : state :=
  let st := setSubscriptions subscriptionsList st in
  let totals := calculatedTotals subscriptionsList in
  setTotalYearlyCost (snd totals) (setTotalMonthlyCost (fst totals) st).

(** The error callback of [onSnapshot]. *)
Definition onSnapshotError (st : state) : state :=
  setError "Failed to load subscriptions from the database." st.

(** *** The form *)

(** [if (editingId)]: [null] and the empty string are falsy. *)
Definition editing (st : state) : bool :=
  match editingId st with
  | Some i => Js.truthy_string i
  | None => false
  end.

Definition startEdit (sub : subscription) (st : state) : state :=
  let st := setFormName (name sub) st in
  let st := setFormCost (Js.VNum (cost sub)) st in
  let st := setFormCycle (cycle sub) st in
  setEditingId (Some (id sub)) st.

(** The [onClick] of the Cancel button. *)
Definition cancelEdit (st : state) : state :=
  let st := setEditingId None st in
  let st := setFormName "" st in
  let st := setFormCost (Js.VStr "") st in
  setFormCycle "monthly" st.

(** *** Handlers that write to the store *)

(** The component, the collection behind it, and the requests sent to the
    store so far (oldest first). Firebase is taken to have initialised, so
    that [db] is defined. [docs] is the one collection the paths of the
    component name, [artifacts/{appId}/users/{userId}/subscriptions] for the
    [userId] of the session: the writes go to it and the listener, once
    open, reads it. *)
Record world : Type := {
  ui : state;
  docs : gmap string Firestore.docData;
  issued : list Firestore.write
}.

Definition with_ui (st : state) (w : world) : world :=
  {| ui := st; docs := docs w; issued := issued w |}.

(** [await] of one store request: the request is recorded, and the
    collection changes when the service accepts it. The result is the
    world after the request and whether the promise resolved. *)
Definition await_write (r : Firestore.reply) (op : Firestore.write) (w : world)
  : world * bool :=
  match Firestore.exec r op (docs w) with
  | Some docs' => ({| ui := ui w; docs := docs'; issued := issued w ++ [op] |}, true)
  | None => ({| ui := ui w; docs := docs w; issued := issued w ++ [op] |}, false)
  end.

(** [handleSubmit], run to completion: [now] is what [new Date()] returns
    and [r] what the store does with the request. *)
Definition handleSubmit (now : Z) (r : Firestore.reply) (w : world) : world :=
  let st := ui w in
  if negb (Js.truthy_string (formName st)) || negb (Js.truthy (formCost st)) then
    with_ui (setError "Please fill in both the name and cost." st) w
  else
    let w := with_ui (setError "" (setLoading true st)) w in
    let newSubscription := {|
      Firestore.name := formName st;
      Firestore.cost := Js.parseFloat (formCost st);
      Firestore.cycle := formCycle st;
      Firestore.createdAt := now
    |} in
    let '(w, resolved) :=
      if editing st then
        let '(w, resolved) :=
          await_write r (Firestore.UpdateDoc (default "" (editingId st)) newSubscription) w in
        if resolved
        then (with_ui (setMessage "Subscription updated successfully!" (ui w)) w, true)
        else (w, false)
      else
        let '(w, resolved) := await_write r (Firestore.AddDoc newSubscription) w in
        if resolved
        then (with_ui (setMessage "Subscription added successfully!" (ui w)) w, true)
        else (w, false) in
    let w :=
      if resolved then
        let st := setFormName "" (ui w) in
        let st := setFormCost (Js.VStr "") st in
        let st := setFormCycle "monthly" st in
        with_ui (setEditingId None st) w
      else
        with_ui (setError "Failed to save subscription. Please try again." (ui w)) w in
    with_ui (setLoading false (ui w)) w.

Definition handleDelete (i : string) (r : Firestore.reply) (w : world) : world :=
  let w := with_ui (setError "" (setLoading true (ui w))) w in
  let '(w, resolved) := await_write r (Firestore.DeleteDoc i) w in
  let w :=
    if resolved
    then with_ui (setMessage "Subscription deleted successfully!" (ui w)) w
    else with_ui (setError "Failed to delete subscription. Please try again." (ui w)) w in
  with_ui (setLoading false (ui w)) w.

(** The list the listener builds for a collection: one element per
    document, [{ id: doc.id, ...doc.data() }], in the order the map lists
    its documents. *)
Definition subscriptionsList (ds : gmap string Firestore.docData) : list subscription :=
  (fun '(i, d) =>
     {| id := i; name := Firestore.name d; cost := Firestore.cost d;
        cycle := Firestore.cycle d; createdAt := Firestore.createdAt d |})
    <$> map_to_list ds.

(** The listener runs on a list it is handed: it acts on the component
    alone. *)
Definition receiveSnapshot (subs : list subscription) (w : world) : world :=
  with_ui (onSnapshot subs (ui w)) w.

(** The store pushes the current collection to the listener. The listener
    is open only when the guard of its effect holds ([Session.listening]
    below); [Ui.step] delivers a snapshot under that guard. *)
Definition deliverSnapshot (w : world) : world :=
  receiveSnapshot (subscriptionsList (docs w)) w.

(** *** The report *)

(** [generateGeminiReport] up to the [fetch]: what is set before the
    request leaves. The prompt built from the list only goes into the
    request body. *)
Definition generateGeminiReport_start (st : state) : state :=
  let st := setLoading true st in
  let st := setError "" st in
  let st := setMessage "" st in
  setGeminiResponse None st.

(** The text the [try] block obtains from the outcome of [fetch] ([None]
    when [fetch] itself rejects); [None] when an exception is thrown. *)
Definition reportText (outcome : option Http.response) : option Http.json :=
  match outcome with
  | None => None
  | Some response =>
      if negb (Http.ok response) then None
      else
        match Http.body response with
        | None => None
        | Some result =>
            let text := Http.text_of result in
            if Http.truthy text then text else None
        end
  end.

(** [generateGeminiReport] from the moment the [fetch] settles. *)
Definition generateGeminiReport_finish (outcome : option Http.response) (st : state) : state :=
  let st :=
    match reportText outcome with
    | Some text => setGeminiResponse (Some text) st
    | None => setError "Failed to generate report. Please try again later." st
    end in
  setLoading false st.

Definition generateGeminiReport (outcome : option Http.response) (st : state) : state :=
  generateGeminiReport_finish outcome (generateGeminiReport_start st).

(** *** What the view shows *)

(** [{totalMonthlyCost.toFixed(2)}] and [{totalYearlyCost.toFixed(2)}] *)
Definition shownMonthly (st : state) : option string := Js.toFixed (totalMonthlyCost st) 2.
Definition shownYearly (st : state) : option string := Js.toFixed (totalYearlyCost st) 2.

(** [{error && <div>{error}</div>}] *)
Definition shownError (st : state) : option string :=
  if Js.truthy_string (error st) then Some (error st) else None.

(** [{message && <div>{message}</div>}] *)
Definition shownMessage (st : state) : option string :=
  if Js.truthy_string (message st) then Some (message st) else None.

(** The child handed to the report paragraph, when the paragraph is
    rendered: inside [subscriptions.length > 0 && ...], under
    [geminiResponse && ...]. A string is shown as it is; what the renderer
    makes of a value that is not a string is not modelled. *)
Definition shownReport (st : state) : option Http.json :=
  match subscriptions st with
  | [] => None
  | _ :: _ => if Http.truthy (geminiResponse st) then geminiResponse st else None
  end.

(** *** Handlers as steps of the world *)

(** [startEdit], the Cancel button and [generateGeminiReport] call no store
    function: they act on the component alone. *)
Definition clickEdit (sub : subscription) (w : world) : world :=
  with_ui (startEdit sub (ui w)) w.

Definition clickCancel (w : world) : world :=
  with_ui (cancelEdit (ui w)) w.

Definition clickReport (outcome : option Http.response) (w : world) : world :=
  with_ui (generateGeminiReport outcome (ui w)) w.

(** The [onChange] handlers of the three inputs. *)
Definition typeForm (n c cy : string) (w : world) : world :=
  with_ui (setFormCycle cy (setFormCost (Js.VStr c) (setFormName n (ui w)))) w.

End App.

(** ** The aggregation as the specification words it *)

Module Spec.

(** "monthly-equivalent is [cost] if [cycle=monthly] else [cost/12]" *)
Definition monthlyEquivalent (sub : App.subscription) : float :=
  if String.eqb (App.cycle sub) "monthly" then App.cost sub
  else (App.cost sub / 12)%float.

(** "yearly-equivalent is [cost*12] if [cycle=monthly] else [cost]" *)
Definition yearlyEquivalent (sub : App.subscription) : float :=
  if String.eqb (App.cycle sub) "monthly" then (App.cost sub * 12)%float
  else App.cost sub.

(** The monthly equivalent with the test the code makes: the division is
    for the yearly cycle, any other cycle keeps the cost. *)
Definition monthlyEquivalent_amended (sub : App.subscription) : float :=
  if String.eqb (App.cycle sub) "yearly" then (App.cost sub / 12)%float
  else App.cost sub.

(** "Sum each across all subscriptions": from [0], in the order of the set. *)
Definition sum (f : App.subscription -> float) (subs : list App.subscription) : float :=
  fold_left (fun acc sub => (acc + f sub)%float) subs 0%float.

Definition totals (subs : list App.subscription) : float * float :=
  (sum monthlyEquivalent subs, sum yearlyEquivalent subs).

(** The data model's cycles. *)
Definition enumerated (sub : App.subscription) : Prop :=
  App.cycle sub = "monthly" \/ App.cycle sub = "yearly".

End Spec.

(** ** Sample data *)

Module Sample.

Import App.

Definition netflix : subscription :=
  {| id := "a1"; name := "Netflix"; cost := 500; cycle := "monthly"; createdAt := 1000 |}.

Definition prime : subscription :=
  {| id := "b2"; name := "Prime"; cost := 1499; cycle := "yearly"; createdAt := 2000 |}.

(** A record whose cycle is outside the form's two options. *)
Definition gym : subscription :=
  {| id := "c3"; name := "Gym"; cost := 120; cycle := "weekly"; createdAt := 3000 |}.

Definition emptyWorld : world :=
  {| ui := initialState; docs := ∅; issued := [] |}.

Definition accept (i : string) : Firestore.reply :=
  {| Firestore.accepted := true; Firestore.newId := i |}.

Definition reject : Firestore.reply :=
  {| Firestore.accepted := false; Firestore.newId := "" |}.

(** The form filled in for Netflix, not submitted yet. *)
Definition netflixTyped : world := typeForm "Netflix" "500" "monthly" emptyWorld.

(** Netflix created at time [1000] and delivered to the listener. *)
Definition netflixStored : world :=
  deliverSnapshot (handleSubmit 1000 (accept "a1") netflixTyped).

(** Prime added at time [2000]. *)
Definition bothStored : world :=
  deliverSnapshot
    (handleSubmit 2000 (accept "b2") (typeForm "Prime" "1499" "yearly" netflixStored)).

(** A record that costs nothing. *)
Definition trial : subscription :=
  {| id := "d4"; name := "Trial"; cost := 0; cycle := "monthly"; createdAt := 4000 |}.

(** The edit of the stored record opened, nothing changed in the form. *)
Definition netflixEditing : world := clickEdit netflix netflixStored.

(** A report is on display. *)
Definition reported : state :=
  setGeminiResponse (Some (Http.JStr "You spend 500 a month.")) (ui netflixStored).

Definition serverError : Http.response :=
  {| Http.status := 500; Http.body := None |}.

(** A 200 response whose body has no [candidates]. *)
Definition noCandidates : Http.response :=
  {| Http.status := 200; Http.body := Some (Http.JObj [("promptFeedback", Http.JObj [])]) |}.

Definition goodReport : Http.response :=
  {| Http.status := 200;
     Http.body := Some (Http.JObj [("candidates", Http.JArr [Http.JObj [("content",
       Http.JObj [("parts", Http.JArr [Http.JObj [("text", Http.JStr "Cancel one.")]])])]])]) |}.

End Sample.

(** ** The session *)

Module Session.

Import App.

Definition setUserId (v : option string) (st : state) : state :=
  {| userId := v; loading := loading st; error := error st; message := message st;
     isAuthReady := isAuthReady st; subscriptions := subscriptions st;
     totalMonthlyCost := totalMonthlyCost st; totalYearlyCost := totalYearlyCost st;
     formName := formName st; formCost := formCost st; formCycle := formCycle st;
     editingId := editingId st; geminiResponse := geminiResponse st |}.

Definition setIsAuthReady (v : bool) (st : state) : state :=
  {| userId := userId st; loading := loading st; error := error st; message := message st;
     isAuthReady := v; subscriptions := subscriptions st;
     totalMonthlyCost := totalMonthlyCost st; totalYearlyCost := totalYearlyCost st;
     formName := formName st; formCost := formCost st; formCycle := formCycle st;
     editingId := editingId st; geminiResponse := geminiResponse st |}.

(** The two sign-in calls of the auth listener. *)
Inductive signIn : Type :=
| SignInWithCustomToken (token : string)
| SignInAnonymously.

(** What the auth service does while the listener runs: whether the awaited
    sign-in resolves, and the [uid] of [auth.currentUser] when the listener
    reads it ([None]: there is no current user). *)
Record service : Type := {
  resolves : bool;
  currentUser : option string
}.

(** The sign-in the listener starts for [user], with [initialAuthToken] as
    configured ([None] is [null]): none when there is a user, the token
    sign-in when the token is truthy, the anonymous one otherwise. *)
Definition requested (initialAuthToken user : option string) : option signIn :=
  match user with
  | Some _ => None
  | None =>
      match initialAuthToken with
      | Some token =>
          if Js.truthy_string token then Some (SignInWithCustomToken token)
          else Some SignInAnonymously
      | None => Some SignInAnonymously
      end
  end.

(** [auth.currentUser?.uid || 'anonymous'] *)
Definition uidOrAnonymous (current : option string) : string :=
  match current with
  | Some uid => if Js.truthy_string uid then uid else "anonymous"
  | None => "anonymous"
  end.

(** The listener passed to [onAuthStateChanged]. When the awaited sign-in
    rejects, the rest of the listener does not run. *)
Definition authListener (initialAuthToken user : option string) (svc : service)
    (st : state) : state :=
  let ready :=
    setIsAuthReady true (setUserId (Some (uidOrAnonymous (currentUser svc))) st) in
  match requested initialAuthToken user with
  | Some _ => if resolves svc then ready else st
  | None => ready
  end.

(** The guard of the effect that opens the snapshot listener:
    [isAuthReady && userId] ([db] being defined). *)
Definition listening (st : state) : bool :=
  isAuthReady st
  && match userId st with
     | Some uid => Js.truthy_string uid
     | None => false
     end.

(** [artifacts/${appId}/users/${userId}/subscriptions] *)
Definition subscriptionsPath (appId uid : string) : string :=
  "artifacts/" +:+ appId +:+ "/users/" +:+ uid +:+ "/subscriptions".

End Session.

(** ** The rest of the view *)

Module View.

Import App.

(** The heading of the form. *)
Definition heading (st : state) : string :=
  if editing st then "Edit Subscription" else "Add New Subscription".

(** The label of the submit button, which is [disabled={loading}]. *)
Definition submitLabel (st : state) : string :=
  if loading st then "Saving..."
  else if editing st then "Update Subscription" else "Add Subscription".

Definition submitDisabled (st : state) : bool := loading st.

(** [{editingId && <button>Cancel</button>}] *)
Definition cancelShown (st : state) : bool := editing st.

(** [{subscriptions.length === 0 && !loading && ...}] *)
Definition emptyNoteShown (st : state) : bool :=
  (length (subscriptions st) =? 0)%nat && negb (loading st).

(** [{subscriptions.length > 0 && ...}]: the report section, whose button is
    [disabled={loading}]. *)
Definition reportSectionShown (st : state) : bool :=
  (0 <? length (subscriptions st))%nat.

Definition reportDisabled (st : state) : bool := loading st.

(** The text beside the spinner, under [{loading && ...}]. *)
Definition loadingText (st : state) : option string :=
  if loading st then
    Some (if Http.truthy (geminiResponse st)
          then "Generating a new report..." else "Loading...")
  else None.

End View.

(** ** The component driven by events

    Every event is one of the listeners the component registers, guarded as
    the view guards it; a handler runs to completion before the next event
    is taken. *)

Module Ui.

Import App.

(** The two [<option>]s of the cycle [<select>]. *)
Inductive cycleOption : Type := Monthly | Yearly.

Definition optionValue (o : cycleOption) : string :=
  match o with
  | Monthly => "monthly"
  | Yearly => "yearly"
  end.

Inductive event : Type :=
| AuthStateChanged (user : option string) (svc : Session.service)
| ChangeName (text : string)
| ChangeCost (text : string)
| ChangeCycle (o : cycleOption)
| Submit (now : Z) (r : Firestore.reply)
| ClickEdit (n : nat)                        (* the n-th item of the list *)
| ClickDelete (n : nat) (r : Firestore.reply)
| ClickCancel
| ClickReport (outcome : option Http.response)
| Snapshot
| SnapshotFailed.

Definition step (initialAuthToken : option string) (e : event) (w : world) : world :=
  match e with
  | AuthStateChanged user svc =>
      with_ui (Session.authListener initialAuthToken user svc (ui w)) w
  | ChangeName text => with_ui (setFormName text (ui w)) w
  | ChangeCost text => with_ui (setFormCost (Js.VStr text) (ui w)) w
  | ChangeCycle o => with_ui (setFormCycle (optionValue o) (ui w)) w
  | Submit now r =>
      if View.submitDisabled (ui w) then w else handleSubmit now r w
  | ClickEdit n =>
      match subscriptions (ui w) !! n with
      | Some sub => clickEdit sub w
      | None => w
      end
  | ClickDelete n r =>
      match subscriptions (ui w) !! n with
      | Some sub => handleDelete (id sub) r w
      | None => w
      end
  | ClickCancel => if View.cancelShown (ui w) then clickCancel w else w
  | ClickReport outcome =>
      if View.reportSectionShown (ui w) && negb (View.reportDisabled (ui w))
      then clickReport outcome w else w
  | Snapshot => if Session.listening (ui w) then deliverSnapshot w else w
  | SnapshotFailed =>
      if Session.listening (ui w) then with_ui (onSnapshotError (ui w)) w else w
  end.

Definition run (initialAuthToken : option string) (events : list event) (w : world)
  : world :=
  fold_left (fun w e => step initialAuthToken e w) events w.

(** The record a request carries, when it carries one. *)
Definition payload (op : Firestore.write) : option Firestore.docData :=
  match op with
  | Firestore.AddDoc data | Firestore.UpdateDoc _ data => Some data
  | Firestore.DeleteDoc _ => None
  end.

(** A record as the form lets one through: a name, and one of the two
    cycles. *)
Definition formed (d : Firestore.docData) : Prop :=
  Firestore.name d <> ""
  /\ (Firestore.cycle d = "monthly" \/ Firestore.cycle d = "yearly").

(** What holds of the component between two events. *)
Record settled (w : world) : Prop := {
  stored_formed : map_Forall (fun _ d => formed d) (docs w);
  issued_formed : Forall (fun op => from_option formed True (payload op)) (issued w);
  listed_formed :
    Forall (fun sub => name sub <> "" /\ Spec.enumerated sub) (subscriptions (ui w));
  form_cycle : formCycle (ui w) = "monthly" \/ formCycle (ui w) = "yearly";
  totals_current :
    (totalMonthlyCost (ui w), totalYearlyCost (ui w))
    = calculatedTotals (subscriptions (ui w));
  at_rest : loading (ui w) = false;
  report_truthy :
    geminiResponse (ui w) = None \/ Http.truthy (geminiResponse (ui w)) = true;
  ready_user :
    isAuthReady (ui w) = true -> exists uid, userId (ui w) = Some uid /\ uid <> ""
}.

End Ui.

(** ** A sample session *)

Module Scenario.

Import App.

Definition signedIn : Session.service :=
  {| Session.resolves := true; Session.currentUser := Some "u-17" |}.

Definition signInFails : Session.service :=
  {| Session.resolves := false; Session.currentUser := None |}.

(** Sign in, add Netflix and Prime, open Netflix for editing, change its
    cost, save, ask for a report that fails, delete Prime. *)
Definition session : list Ui.event :=
  [ Ui.AuthStateChanged None signedIn;
    Ui.Snapshot;
    Ui.ChangeName "Netflix"; Ui.ChangeCost "500"; Ui.Submit 1000 (Sample.accept "a1");
    Ui.Snapshot;
    Ui.ChangeName "Prime"; Ui.ChangeCost "1499"; Ui.ChangeCycle Ui.Yearly;
    Ui.Submit 2000 (Sample.accept "b2");
    Ui.Snapshot;
    Ui.ClickEdit 0; Ui.ChangeCost "650"; Ui.Submit 3000 (Sample.accept "");
    Ui.Snapshot;
    Ui.ClickReport (Some Sample.serverError);
    Ui.ClickDelete 1 (Sample.accept "");
    Ui.Snapshot ].

Definition afterSession : world := Ui.run None session Sample.emptyWorld.

(** The same session with one more request for a report, which succeeds. *)
Definition reportedSession : list Ui.event :=
  session ++ [Ui.ClickReport (Some Sample.goodReport)].

Definition afterReport : world := Ui.run None reportedSession Sample.emptyWorld.

(** Signed in, the listener open, the form filled in for Netflix. *)
Definition netflixTypedSignedIn : world :=
  Ui.run None
    [ Ui.AuthStateChanged None signedIn; Ui.Snapshot;
      Ui.ChangeName "Netflix"; Ui.ChangeCost "500" ]
    Sample.emptyWorld.

(** The record of Netflix as stored. *)
Definition netflixData : Firestore.docData :=
  {| Firestore.name := "Netflix"; Firestore.cost := 500;
     Firestore.cycle := "monthly"; Firestore.createdAt := 1000 |}.

(** A list with a record whose cost did not parse. *)
Definition broken : subscription :=
  {| id := "e5"; name := "Cloud"; cost := nan; cycle := "monthly"; createdAt := 5000 |}.

End Scenario.

(** * Properties *)

(** ** The aggregator *)

Section Aggregator.

Import App.

(** One round of the loop adds the two equivalents of the element to the
    running totals. *)
Lemma forEach_body_equivalents (a b : float) (sub : subscription) :
  forEach_body (a, b) sub
  = ((a + Spec.monthlyEquivalent_amended sub)%float, (b + Spec.yearlyEquivalent sub)%float).
Proof.
  unfold forEach_body, Spec.monthlyEquivalent_amended, Spec.yearlyEquivalent.
  destruct (String.eqb_spec (cycle sub) "yearly") as [Hy | Hy].
  - rewrite Hy. reflexivity.
  - destruct (String.eqb (cycle sub) "monthly"); reflexivity.
Qed.

(** The single loop over pairs computes the two sums side by side. *)
Lemma fold_forEach_body (subs : list subscription) :
  forall a b : float,
    fold_left forEach_body subs (a, b)
    = (fold_left (fun acc sub => (acc + Spec.monthlyEquivalent_amended sub)%float) subs a,
       fold_left (fun acc sub => (acc + Spec.yearlyEquivalent sub)%float) subs b).
Proof.
  induction subs as [| sub subs IH]; intros a b.
  - reflexivity.
  - cbn [fold_left]. rewrite forEach_body_equivalents. apply IH.
Qed.

Lemma calculatedTotals_sums (subs : list subscription) :
  calculatedTotals subs
  = (Spec.sum Spec.monthlyEquivalent_amended subs, Spec.sum Spec.yearlyEquivalent subs).
Proof. apply fold_forEach_body. Qed.

(** The loop over a list extended at its end is one more round. *)
Lemma calculatedTotals_snoc (subs : list subscription) (sub : subscription) :
  calculatedTotals (subs ++ [sub]) = forEach_body (calculatedTotals subs) sub.
Proof. unfold calculatedTotals. rewrite fold_left_app. reflexivity. Qed.

(** On the cycles of the data model the two wordings of the monthly
    equivalent agree. *)
Lemma monthlyEquivalent_enumerated (sub : subscription) :
  Spec.enumerated sub ->
  Spec.monthlyEquivalent sub = Spec.monthlyEquivalent_amended sub.
Proof.
  unfold Spec.enumerated, Spec.monthlyEquivalent, Spec.monthlyEquivalent_amended.
  intros [H | H]; rewrite H; reflexivity.
Qed.

Lemma sum_ext_Forall (f g : subscription -> float) (subs : list subscription) :
  Forall (fun sub => f sub = g sub) subs ->
  forall a : float,
    fold_left (fun acc sub => (acc + f sub)%float) subs a
    = fold_left (fun acc sub => (acc + g sub)%float) subs a.
Proof.
  induction 1 as [| sub subs Hsub _ IH]; intros a; cbn [fold_left].
  - reflexivity.
  - rewrite Hsub. apply IH.
Qed.

(** With every cycle monthly or yearly, the code's totals are the sums the
    specification words. *)
Lemma calculatedTotals_enumerated (subs : list subscription) :
  Forall Spec.enumerated subs -> calculatedTotals subs = Spec.totals subs.
Proof.
  intros Hall. rewrite calculatedTotals_sums. unfold Spec.totals, Spec.sum.
  f_equal. symmetry. apply sum_ext_Forall.
  eapply Forall_impl; [exact Hall | exact monthlyEquivalent_enumerated].
Qed.

Lemma calculatedTotals_enumerated_witness :
  Forall Spec.enumerated [Sample.netflix; Sample.prime]
  /\ calculatedTotals [Sample.netflix; Sample.prime]
     = Spec.totals [Sample.netflix; Sample.prime].
Proof.
  assert (H : Forall Spec.enumerated [Sample.netflix; Sample.prime]).
  { constructor; [left; reflexivity |].
    constructor; [right; reflexivity | constructor]. }
  split; [exact H | exact (calculatedTotals_enumerated _ H)].
Defined.

(** For any cycles: the listener sets [totalMonthlyCost] to the sum of
    ([cost/12] if the cycle is yearly, else [cost]) and [totalYearlyCost] to
    the sum of ([cost*12] if the cycle is monthly, else [cost]); besides the
    list and the two totals it changes no state, and it leaves the
    collection and the requests sent untouched. *)
Lemma receiveSnapshot_totals (subs : list subscription) (w : world) :
  let w' := receiveSnapshot subs w in
  totalMonthlyCost (ui w') = Spec.sum Spec.monthlyEquivalent_amended subs
  /\ totalYearlyCost (ui w') = Spec.sum Spec.yearlyEquivalent subs
  /\ ui w' = setTotalYearlyCost (Spec.sum Spec.yearlyEquivalent subs)
               (setTotalMonthlyCost (Spec.sum Spec.monthlyEquivalent_amended subs)
                  (setSubscriptions subs (ui w)))
  /\ docs w' = docs w
  /\ issued w' = issued w.
Proof.
  cbn zeta. unfold receiveSnapshot, onSnapshot. rewrite calculatedTotals_sums. cbn.
  repeat split; reflexivity.
Qed.

Lemma sum_monthlyEquivalent_enumerated (subs : list subscription) :
  Forall Spec.enumerated subs ->
  Spec.sum Spec.monthlyEquivalent subs = Spec.sum Spec.monthlyEquivalent_amended subs.
Proof.
  intros Hall. unfold Spec.sum. apply sum_ext_Forall.
  eapply Forall_impl; [exact Hall | exact monthlyEquivalent_enumerated].
Qed.

(** C1: for every set of subscriptions of the data model (each cycle
    monthly or yearly), the listener sets [totalMonthlyCost] to the sum over
    all subscriptions of ([cost] if the cycle is monthly, else [cost/12])
    and [totalYearlyCost] to the sum of ([cost*12] if the cycle is monthly,
    else [cost]), each round of the loop adding just these two equivalents;
    it has no side effect: besides the list and the two totals it changes
    no state, and it leaves the collection and the requests sent
    untouched. *)
Theorem aggregator_totals (subs : list subscription) (w : world) :
  Forall Spec.enumerated subs ->
  let w' := receiveSnapshot subs w in
  totalMonthlyCost (ui w') = Spec.sum Spec.monthlyEquivalent subs
  /\ totalYearlyCost (ui w') = Spec.sum Spec.yearlyEquivalent subs
  /\ (forall sub totals,
        sub ∈ subs ->
        forEach_body totals sub
        = ((fst totals + Spec.monthlyEquivalent sub)%float,
           (snd totals + Spec.yearlyEquivalent sub)%float))
  /\ ui w' = setTotalYearlyCost (Spec.sum Spec.yearlyEquivalent subs)
               (setTotalMonthlyCost (Spec.sum Spec.monthlyEquivalent subs)
                  (setSubscriptions subs (ui w)))
  /\ docs w' = docs w
  /\ issued w' = issued w.
Proof.
  intros Hall. cbn zeta.
  rewrite (sum_monthlyEquivalent_enumerated subs Hall).
  destruct (receiveSnapshot_totals subs w) as (Hm & Hy & Hui & Hdocs & Hissued).
  split; [exact Hm | split; [exact Hy | split; [| auto]]].
  intros sub [a b] Hin.
  rewrite forEach_body_equivalents, monthlyEquivalent_enumerated; [reflexivity |].
  exact (proj1 (Forall_forall _ _) Hall sub Hin).
Qed.

Lemma aggregator_totals_witness :
  Forall Spec.enumerated [Sample.netflix; Sample.prime]
  /\ totalMonthlyCost (ui (receiveSnapshot [Sample.netflix; Sample.prime] Sample.emptyWorld))
     = Spec.sum Spec.monthlyEquivalent [Sample.netflix; Sample.prime]
  /\ totalYearlyCost (ui (receiveSnapshot [Sample.netflix; Sample.prime] Sample.emptyWorld))
     = Spec.sum Spec.yearlyEquivalent [Sample.netflix; Sample.prime]
  /\ docs (receiveSnapshot [Sample.netflix; Sample.prime] Sample.emptyWorld)
     = docs Sample.emptyWorld.
Proof.
  assert (H : Forall Spec.enumerated [Sample.netflix; Sample.prime]).
  { constructor; [left; reflexivity |].
    constructor; [right; reflexivity | constructor]. }
  pose proof (aggregator_totals [Sample.netflix; Sample.prime] Sample.emptyWorld H) as Ht.
  cbv zeta in Ht. destruct Ht as (Hm & Hy & _ & _ & Hdocs & _).
  split; [exact H | split; [exact Hm | split; [exact Hy | exact Hdocs]]].
Defined.

(** Outside the data model: a subscription whose cycle is neither monthly
    nor yearly counts with its full cost in the monthly total, where the
    formula for the two cycles of the data model would take a twelfth of
    it. *)
Example other_cycle_monthly_total :
  totalMonthlyCost (onSnapshot [Sample.gym] initialState) = 120%float
  /\ Spec.sum Spec.monthlyEquivalent [Sample.gym] = 10%float
  /\ totalMonthlyCost (onSnapshot [Sample.gym] initialState)
     <> Spec.sum Spec.monthlyEquivalent [Sample.gym].
Proof.
  split; [reflexivity | split; [reflexivity |]].
  intros H.
  assert (Hb : PrimFloat.eqb (totalMonthlyCost (onSnapshot [Sample.gym] initialState)) 120
               = PrimFloat.eqb (Spec.sum Spec.monthlyEquivalent [Sample.gym]) 120)
    by (rewrite H; reflexivity).
  vm_compute in Hb. discriminate Hb.
Qed.

(** C6: on Netflix (500, monthly) and Prime (1499, yearly) the monthly total
    is [500 + 1499/12], shown as 624.92, and the yearly total is
    [500*12 + 1499 = 7499], shown as 7499.00. *)
Theorem aggregator_netflix_prime (st : state) :
  let st' := onSnapshot [Sample.netflix; Sample.prime] st in
  totalMonthlyCost st' = (500 + 1499 / 12)%float
  /\ shownMonthly st' = Some "624.92"
  /\ totalYearlyCost st' = (500 * 12 + 1499)%float
  /\ totalYearlyCost st' = 7499%float
  /\ shownYearly st' = Some "7499.00".
Proof.
  cbn zeta. unfold shownMonthly, shownYearly, onSnapshot.
  cbn [totalMonthlyCost totalYearlyCost setTotalYearlyCost setTotalMonthlyCost].
  repeat split; vm_compute; reflexivity.
Qed.

(** C7: the empty list gives exactly [0] for both totals. *)
Theorem aggregator_empty (st : state) :
  totalMonthlyCost (onSnapshot [] st) = 0%float
  /\ totalYearlyCost (onSnapshot [] st) = 0%float.
Proof. split; reflexivity. Qed.

(** C9: a subscription whose cycle is neither ['monthly'] nor ['yearly']
    adds its cost as it is to both running totals, and so to both totals of
    a list that it ends. *)
Theorem aggregator_other_cycle (subs : list subscription) (sub : subscription)
    (totals : float * float) (st : state) :
  cycle sub <> "monthly" ->
  cycle sub <> "yearly" ->
  forEach_body totals sub
  = ((fst totals + cost sub)%float, (snd totals + cost sub)%float)
  /\ totalMonthlyCost (onSnapshot (subs ++ [sub]) st)
     = (totalMonthlyCost (onSnapshot subs st) + cost sub)%float
  /\ totalYearlyCost (onSnapshot (subs ++ [sub]) st)
     = (totalYearlyCost (onSnapshot subs st) + cost sub)%float.
Proof.
  intros Hm Hy.
  assert (Hbody : forall t, forEach_body t sub
                            = ((fst t + cost sub)%float, (snd t + cost sub)%float)).
  { intros t. unfold forEach_body.
    destruct (String.eqb_spec (cycle sub) "yearly") as [E | _]; [contradiction |].
    destruct (String.eqb_spec (cycle sub) "monthly") as [E | _]; [contradiction |].
    reflexivity. }
  split; [apply Hbody |].
  unfold onSnapshot.
  cbn [totalMonthlyCost totalYearlyCost setTotalYearlyCost setTotalMonthlyCost].
  rewrite calculatedTotals_snoc, Hbody. split; reflexivity.
Qed.

Lemma aggregator_other_cycle_witness :
  cycle Sample.gym <> "monthly"
  /\ cycle Sample.gym <> "yearly"
  /\ forEach_body (500, 6000)%float Sample.gym = (620, 6120)%float
  /\ totalMonthlyCost (onSnapshot [Sample.netflix; Sample.gym] initialState) = 620%float
  /\ totalYearlyCost (onSnapshot [Sample.netflix; Sample.gym] initialState) = 6120%float.
Proof.
  assert (Hm : cycle Sample.gym <> "monthly") by (cbn; discriminate).
  assert (Hy : cycle Sample.gym <> "yearly") by (cbn; discriminate).
  split; [exact Hm | split; [exact Hy |]].
  exact (aggregator_other_cycle [Sample.netflix] Sample.gym (500, 6000)%float
           initialState Hm Hy).
Defined.

(** The scenario end to end: both subscriptions entered through the form,
    stored, and pushed back to the listener. *)
Example scenario_netflix_prime :
  subscriptions (ui Sample.bothStored) = [Sample.netflix; Sample.prime]
  /\ shownMonthly (ui Sample.bothStored) = Some "624.92"
  /\ shownYearly (ui Sample.bothStored) = Some "7499.00".
Proof. repeat split; vm_compute; reflexivity. Qed.

(** Deleting the only subscription brings both totals back to [0]. *)
Example scenario_delete_last :
  let w := deliverSnapshot (handleDelete "a1" (Sample.accept "") Sample.netflixStored) in
  subscriptions (ui w) = []
  /\ totalMonthlyCost (ui w) = 0%float
  /\ totalYearlyCost (ui w) = 0%float
  /\ message (ui w) = "Subscription deleted successfully!".
Proof. cbn zeta. repeat split; vm_compute; reflexivity. Qed.

End Aggregator.

(** ** The form *)

Section Form.

Import App.

Variable now : Z.
Variable r : Firestore.reply.
Variable w : world.

(** The record [handleSubmit] builds from the form. *)
Let candidate : Firestore.docData :=
  {| Firestore.name := formName (ui w);
     Firestore.cost := Js.parseFloat (formCost (ui w));
     Firestore.cycle := formCycle (ui w);
     Firestore.createdAt := now |}.

Lemma truthy_string_nonempty (s : string) :
  s <> "" -> Js.truthy_string s = true.
Proof.
  intros H. unfold Js.truthy_string.
  destruct (String.eqb_spec s ""); [contradiction | reflexivity].
Qed.

(** The two branches that follow the awaited write. *)
Ltac case_write :=
  match goal with
  | |- context [Firestore.exec ?reply ?op ?ds] => destruct (Firestore.exec reply op ds)
  end.

Lemma handleSubmit_invalid :
  Js.truthy_string (formName (ui w)) && Js.truthy (formCost (ui w)) = false ->
  handleSubmit now r w
  = with_ui (setError "Please fill in both the name and cost." (ui w)) w.
Proof.
  intros H. unfold handleSubmit. rewrite <- negb_andb, H. reflexivity.
Qed.

(** C4: with an empty name or an empty cost, submitting sends no request,
    leaves the collection as it is, and sets the validation error, which the
    view shows. *)
Theorem submit_empty_field :
  formName (ui w) = "" \/ formCost (ui w) = Js.VStr "" ->
  let w' := handleSubmit now r w in
  issued w' = issued w
  /\ docs w' = docs w
  /\ error (ui w') = "Please fill in both the name and cost."
  /\ shownError (ui w') = Some "Please fill in both the name and cost."
  /\ ui w' = setError "Please fill in both the name and cost." (ui w).
Proof.
  intros H. cbn zeta. rewrite handleSubmit_invalid.
  - repeat split; reflexivity.
  - destruct H as [H | H]; rewrite H; [reflexivity | apply andb_false_r].
Qed.

Lemma editing_target (i : string) :
  editingId (ui w) = Some i -> i <> "" -> editing (ui w) = true.
Proof.
  intros Hid Hne. unfold editing. rewrite Hid. apply truthy_string_nonempty, Hne.
Qed.

(** The request a valid submission sends. *)
Lemma handleSubmit_issued :
  Js.truthy_string (formName (ui w)) = true ->
  Js.truthy (formCost (ui w)) = true ->
  issued (handleSubmit now r w)
  = issued w ++ [if editing (ui w)
                 then Firestore.UpdateDoc (default "" (editingId (ui w))) candidate
                 else Firestore.AddDoc candidate].
Proof.
  intros Hn Hc. unfold handleSubmit, await_write. rewrite Hn, Hc. cbn [negb orb].
  destruct (editing (ui w)); cbn [docs with_ui]; case_write; reflexivity.
Qed.

(** C3, as amended: with a non-empty name and a cost that is a non-empty
    text or a non-zero number, submitting builds the candidate record with
    the cost parsed, sends an update at [editingId] when it is set and a
    create otherwise; when the write succeeds the name, the cost, the cycle
    and the edit target are cleared, and when it fails they stay as they
    were and the save error is set. *)
Theorem submit_valid :
  formName (ui w) <> "" ->
  Js.truthy (formCost (ui w)) = true ->
  let st := ui w in
  let w' := handleSubmit now r w in
  exists op : Firestore.write,
    (forall i, editingId st = Some i -> i <> "" -> op = Firestore.UpdateDoc i candidate)
    /\ (editing st = false -> op = Firestore.AddDoc candidate)
    /\ issued w' = issued w ++ [op]
    /\ loading (ui w') = false
    /\ match Firestore.exec r op (docs w) with
       | Some docs' =>
           docs w' = docs'
           /\ formName (ui w') = ""
           /\ formCost (ui w') = Js.VStr ""
           /\ formCycle (ui w') = "monthly"
           /\ editingId (ui w') = None
           /\ error (ui w') = ""
       | None =>
           docs w' = docs w
           /\ formName (ui w') = formName st
           /\ formCost (ui w') = formCost st
           /\ formCycle (ui w') = formCycle st
           /\ editingId (ui w') = editingId st
           /\ error (ui w') = "Failed to save subscription. Please try again."
       end.
Proof.
  intros Hn Hc. apply truthy_string_nonempty in Hn. cbn zeta.
  exists (if editing (ui w)
          then Firestore.UpdateDoc (default "" (editingId (ui w))) candidate
          else Firestore.AddDoc candidate).
  split; [| split; [| split; [apply handleSubmit_issued; assumption |]]].
  - intros i Hid Hne. rewrite (editing_target i Hid Hne), Hid. reflexivity.
  - intros Hed. rewrite Hed. reflexivity.
  - unfold handleSubmit, await_write. rewrite Hn, Hc. cbn [negb orb].
    subst candidate.
    destruct (editing (ui w)); cbv iota zeta; cbn [docs with_ui]; case_write;
      cbn; repeat split; reflexivity.
Qed.

(** An accepted update stores the candidate record, creation time included. *)
Lemma handleSubmit_update_stores (i : string) (old : Firestore.docData) :
  Js.truthy_string (formName (ui w)) = true ->
  Js.truthy (formCost (ui w)) = true ->
  editingId (ui w) = Some i ->
  i <> "" ->
  Firestore.accepted r = true ->
  docs w !! i = Some old ->
  docs (handleSubmit now r w) !! i = Some candidate
  /\ Firestore.createdAt candidate = now.
Proof.
  intros Hn Hc Hid Hne Hacc Hold. split; [| reflexivity].
  unfold handleSubmit, await_write. rewrite Hn, Hc. cbn [negb orb].
  rewrite (editing_target i Hid Hne), Hid.
  cbn [default from_option Datatypes.id docs with_ui].
  unfold Firestore.exec. rewrite Hacc, Hold. cbn. apply lookup_insert_eq.
Qed.

End Form.

Section FormExamples.

Import App.

Lemma submit_empty_field_witness :
  formName (ui Sample.emptyWorld) = ""
  /\ issued (handleSubmit 1000 (Sample.accept "a1") Sample.emptyWorld) = []
  /\ shownError (ui (handleSubmit 1000 (Sample.accept "a1") Sample.emptyWorld))
     = Some "Please fill in both the name and cost.".
Proof.
  split; [reflexivity |].
  pose proof (submit_empty_field 1000 (Sample.accept "a1") Sample.emptyWorld
                (or_introl eq_refl)) as H.
  cbn zeta in H. split; [apply H | apply H].
Defined.

(** C3, as stated, fails: when the store rejects the write, the form keeps
    what was typed. *)
Lemma submit_rejected_keeps_form :
  let w' := handleSubmit 1000 Sample.reject Sample.netflixTyped in
  formName (ui Sample.netflixTyped) = "Netflix"
  /\ formCost (ui Sample.netflixTyped) = Js.VStr "500"
  /\ length (issued w') = 1%nat
  /\ formName (ui w') = "Netflix"
  /\ formCost (ui w') = Js.VStr "500"
  /\ ~ (formName (ui w') = "" /\ formCost (ui w') = Js.VStr ""
        /\ formCycle (ui w') = "monthly" /\ editingId (ui w') = None).
Proof.
  cbn zeta. repeat split; try reflexivity.
  intros [H _]. vm_compute in H. discriminate H.
Qed.

Lemma submit_valid_witness :
  formName (ui Sample.netflixTyped) <> ""
  /\ Js.truthy (formCost (ui Sample.netflixTyped)) = true
  /\ exists op : Firestore.write,
       op = Firestore.AddDoc
              {| Firestore.name := "Netflix"; Firestore.cost := 500;
                 Firestore.cycle := "monthly"; Firestore.createdAt := 1000 |}
       /\ issued (handleSubmit 1000 (Sample.accept "a1") Sample.netflixTyped) = [op]
       /\ formName (ui (handleSubmit 1000 (Sample.accept "a1") Sample.netflixTyped)) = "".
Proof.
  assert (Hn : formName (ui Sample.netflixTyped) <> "") by (cbn; discriminate).
  split; [exact Hn | split; [reflexivity |]].
  destruct (submit_valid 1000 (Sample.accept "a1") Sample.netflixTyped Hn eq_refl)
    as (op & _ & Hadd & Hissued & _ & Hdone).
  exists op. specialize (Hadd eq_refl).
  split; [exact Hadd | split; [exact Hissued |]].
  rewrite Hadd in Hdone. apply Hdone.
Defined.

(** A record whose cost is [0] cannot be saved again from the edit form:
    [startEdit] puts the number [0] in the cost field, and the validation
    takes it for a missing cost. *)
Remark edit_zero_cost_rejected (sub : subscription) (now : Z) (r : Firestore.reply)
    (w : world) :
  Js.truthy_number (cost sub) = false ->
  handleSubmit now r (clickEdit sub w)
  = with_ui (setError "Please fill in both the name and cost." (ui (clickEdit sub w)))
      (clickEdit sub w).
Proof.
  intros H. apply handleSubmit_invalid. cbn. rewrite H. apply andb_false_r.
Qed.

Example edit_trial_rejected :
  issued (handleSubmit 5000 (Sample.accept "") (clickEdit Sample.trial Sample.emptyWorld)) = []
  /\ error (ui (handleSubmit 5000 (Sample.accept "") (clickEdit Sample.trial Sample.emptyWorld)))
     = "Please fill in both the name and cost.".
Proof. split; reflexivity. Qed.

(** C2 on the code: Netflix was created at time 1000; it is opened for
    editing and submitted unchanged at time 5000. The stored record keeps
    its name, cost and cycle, and its [createdAt] becomes 5000. *)
Lemma update_overwrites_createdAt :
  let w' := handleSubmit 5000 (Sample.accept "unused") Sample.netflixEditing in
  docs Sample.netflixEditing !! "a1"
  = Some {| Firestore.name := "Netflix"; Firestore.cost := 500;
            Firestore.cycle := "monthly"; Firestore.createdAt := 1000 |}
  /\ issued w'
     = issued Sample.netflixEditing
       ++ [Firestore.UpdateDoc "a1"
             {| Firestore.name := "Netflix"; Firestore.cost := 500;
                Firestore.cycle := "monthly"; Firestore.createdAt := 5000 |}]
  /\ docs w' !! "a1"
     = Some {| Firestore.name := "Netflix"; Firestore.cost := 500;
               Firestore.cycle := "monthly"; Firestore.createdAt := 5000 |}.
Proof. cbn zeta. repeat split; vm_compute; reflexivity. Qed.

(** C8: starting an edit copies the record's name, cost and cycle into the
    form and sets [editingId] to its id; cancelling then clears the edit
    target and puts the form back to its initial values, and neither step
    sends a request or changes the collection or the list. *)
Theorem edit_then_cancel (sub : subscription) (w : world) :
  let w1 := clickEdit sub w in
  let w2 := clickCancel w1 in
  (formName (ui w1) = name sub
   /\ formCost (ui w1) = Js.VNum (cost sub)
   /\ formCycle (ui w1) = cycle sub
   /\ editingId (ui w1) = Some (id sub))
  /\ (editingId (ui w2) = editingId initialState
      /\ formName (ui w2) = formName initialState
      /\ formCost (ui w2) = formCost initialState
      /\ formCycle (ui w2) = formCycle initialState)
  /\ (editingId (ui w2) = None
      /\ formName (ui w2) = ""
      /\ formCost (ui w2) = Js.VStr ""
      /\ formCycle (ui w2) = "monthly")
  /\ issued w1 = issued w /\ issued w2 = issued w
  /\ docs w1 = docs w /\ docs w2 = docs w
  /\ subscriptions (ui w2) = subscriptions (ui w).
Proof. cbn zeta. repeat split. Qed.

End FormExamples.

(** ** The report *)

Section Report.

Import App.

Lemma reportText_not_ok (response : Http.response) :
  Http.ok response = false -> reportText (Some response) = None.
Proof. intros H. unfold reportText. rewrite H. reflexivity. Qed.

Lemma reportText_no_text (response : Http.response) :
  Http.body response ≫= Http.text_of = None -> reportText (Some response) = None.
Proof.
  intros H. unfold reportText.
  destruct (Http.ok response); [| reflexivity].
  destruct (Http.body response) as [result |]; [| reflexivity].
  cbn in H. rewrite H. reflexivity.
Qed.

(** Without [candidates] the optional chain gives [undefined] at once. *)
Lemma text_of_no_candidates (fields : list (string * Http.json)) :
  Http.assoc "candidates" fields = None -> Http.text_of (Http.JObj fields) = None.
Proof. intros H. unfold Http.text_of. cbn. rewrite H. reflexivity. Qed.

(** Every failure ends in the same state: the one the start left, with the
    failure message and [loading] off. *)
Lemma generateGeminiReport_failed (outcome : option Http.response) (st : state) :
  reportText outcome = None ->
  generateGeminiReport outcome st
  = setLoading false
      (setError "Failed to generate report. Please try again later."
         (generateGeminiReport_start st)).
Proof.
  intros H. unfold generateGeminiReport, generateGeminiReport_finish.
  rewrite H. reflexivity.
Qed.

(** C5: when the response is not a success, or its body has no text at
    [candidates[0].content.parts[0].text], the invocation ends with the
    failure message on display and no report stored; a 200 response without
    [candidates] ends in the very state that failure ends in. *)
Theorem report_failure (st : state) (response : Http.response)
    (fields : list (string * Http.json)) :
  Http.ok response = false \/ Http.body response ≫= Http.text_of = None ->
  Http.assoc "candidates" fields = None ->
  let st' := generateGeminiReport (Some response) st in
  error st' = "Failed to generate report. Please try again later."
  /\ shownError st' = Some "Failed to generate report. Please try again later."
  /\ geminiResponse st' = None
  /\ shownReport st' = None
  /\ loading st' = false
  /\ generateGeminiReport
       (Some {| Http.status := 200; Http.body := Some (Http.JObj fields) |}) st
     = st'.
Proof.
  intros Hfail Hfields. cbn zeta.
  assert (H : reportText (Some response) = None).
  { destruct Hfail; [apply reportText_not_ok | apply reportText_no_text]; assumption. }
  rewrite (generateGeminiReport_failed _ st H).
  repeat split.
  - unfold shownReport. cbn. destruct (subscriptions st); reflexivity.
  - apply generateGeminiReport_failed, reportText_no_text.
    cbn. apply text_of_no_candidates, Hfields.
Qed.

Lemma report_failure_witness :
  Http.ok Sample.serverError = false
  /\ shownError (generateGeminiReport (Some Sample.serverError) Sample.reported)
     = Some "Failed to generate report. Please try again later."
  /\ geminiResponse (generateGeminiReport (Some Sample.serverError) Sample.reported) = None
  /\ generateGeminiReport (Some Sample.noCandidates) Sample.reported
     = generateGeminiReport (Some Sample.serverError) Sample.reported.
Proof.
  pose proof (report_failure Sample.reported Sample.serverError
                [("promptFeedback", Http.JObj [])] (or_introl eq_refl) eq_refl) as H.
  cbn zeta in H.
  split; [reflexivity |].
  split; [apply H | split; [apply H | apply H]].
Defined.

(** C10: every invocation clears the stored report and the message (and the
    error) before the request leaves; so when the invocation fails no report
    is stored or shown afterwards, whatever was there before. *)
Theorem report_cleared_first (st : state) (outcome : option Http.response) :
  (geminiResponse (generateGeminiReport_start st) = None
   /\ message (generateGeminiReport_start st) = ""
   /\ error (generateGeminiReport_start st) = ""
   /\ loading (generateGeminiReport_start st) = true
   /\ generateGeminiReport outcome st
      = generateGeminiReport_finish outcome (generateGeminiReport_start st))
  /\ (reportText outcome = None ->
      geminiResponse (generateGeminiReport outcome st) = None
      /\ shownReport (generateGeminiReport outcome st) = None
      /\ message (generateGeminiReport outcome st) = "").
Proof.
  split.
  - repeat split.
  - intros H. rewrite (generateGeminiReport_failed outcome st H).
    repeat split. unfold shownReport. cbn. destruct (subscriptions st); reflexivity.
Qed.

Lemma report_cleared_first_witness :
  geminiResponse Sample.reported = Some (Http.JStr "You spend 500 a month.")
  /\ reportText (Some Sample.serverError) = None
  /\ geminiResponse (generateGeminiReport (Some Sample.serverError) Sample.reported) = None
  /\ shownReport (generateGeminiReport (Some Sample.serverError) Sample.reported) = None.
Proof.
  split; [reflexivity | split; [reflexivity |]].
  pose proof (proj2 (report_cleared_first Sample.reported (Some Sample.serverError)) eq_refl)
    as H.
  split; apply H.
Defined.

(** A successful response stores its text. *)
Example report_success :
  geminiResponse (generateGeminiReport (Some Sample.goodReport) Sample.reported)
  = Some (Http.JStr "Cancel one.").
Proof. reflexivity. Qed.

End Report.

(** ** Submissions and the collection *)

Section Store.

Import App.

Variable now : Z.
Variable r : Firestore.reply.
Variable w : world.

Let candidate : Firestore.docData :=
  {| Firestore.name := formName (ui w);
     Firestore.cost := Js.parseFloat (formCost (ui w));
     Firestore.cycle := formCycle (ui w);
     Firestore.createdAt := now |}.

(** The request of a valid submission. *)
Let request : Firestore.write :=
  if editing (ui w)
  then Firestore.UpdateDoc (default "" (editingId (ui w))) candidate
  else Firestore.AddDoc candidate.

(** A valid submission, written out: the world after the accepted and after
    the rejected request. *)
Lemma handleSubmit_valid :
  Js.truthy_string (formName (ui w)) = true ->
  Js.truthy (formCost (ui w)) = true ->
  handleSubmit now r w
  = match Firestore.exec r request (docs w) with
    | Some docs' =>
        {| ui :=
             setLoading false
               (setEditingId None
                  (setFormCycle "monthly"
                     (setFormCost (Js.VStr "")
                        (setFormName ""
                           (setMessage
                              (if editing (ui w)
                               then "Subscription updated successfully!"
                               else "Subscription added successfully!")
                              (setError "" (setLoading true (ui w))))))));
           docs := docs';
           issued := issued w ++ [request] |}
    | None =>
        {| ui :=
             setLoading false
               (setError "Failed to save subscription. Please try again."
                  (setError "" (setLoading true (ui w))));
           docs := docs w;
           issued := issued w ++ [request] |}
    end.
Proof.
  intros Hn Hc. unfold handleSubmit, await_write. rewrite Hn, Hc. cbn [negb orb].
  subst request candidate.
  destruct (editing (ui w)); cbv iota zeta; cbn [docs with_ui ui issued];
    match goal with
    | |- context [Firestore.exec ?a ?b ?c] => destruct (Firestore.exec a b c)
    end; reflexivity.
Qed.

(** Every submission either stops at the validation or is a valid one. *)
Lemma handleSubmit_validity :
  Js.truthy_string (formName (ui w)) && Js.truthy (formCost (ui w)) = false
  \/ (Js.truthy_string (formName (ui w)) = true /\ Js.truthy (formCost (ui w)) = true).
Proof.
  destruct (Js.truthy_string (formName (ui w))), (Js.truthy (formCost (ui w)));
    cbn; auto.
Qed.

Lemma handleDelete_eq (i : string) :
  handleDelete i r w
  = match Firestore.exec r (Firestore.DeleteDoc i) (docs w) with
    | Some docs' =>
        {| ui :=
             setLoading false
               (setMessage "Subscription deleted successfully!"
                  (setError "" (setLoading true (ui w))));
           docs := docs';
           issued := issued w ++ [Firestore.DeleteDoc i] |}
    | None =>
        {| ui :=
             setLoading false
               (setError "Failed to delete subscription. Please try again."
                  (setError "" (setLoading true (ui w))));
           docs := docs w;
           issued := issued w ++ [Firestore.DeleteDoc i] |}
    end.
Proof.
  unfold handleDelete, await_write. cbn [docs with_ui ui issued].
  destruct (Firestore.exec r (Firestore.DeleteDoc i) (docs w)); reflexivity.
Qed.

(** A request changes the collection at its own document only. *)
Lemma exec_other (op : Firestore.write) (ds ds' : gmap string Firestore.docData)
    (j : string) :
  Firestore.exec r op ds = Some ds' ->
  match op with
  | Firestore.AddDoc _ => Firestore.newId r
  | Firestore.UpdateDoc i _ | Firestore.DeleteDoc i => i
  end <> j ->
  ds' !! j = ds !! j.
Proof.
  unfold Firestore.exec. destruct (Firestore.accepted r); cbn [negb]; [| discriminate].
  destruct op as [data | i data | i].
  - intros [= <-] Hne. apply lookup_insert_ne, Hne.
  - destruct (ds !! i); [| discriminate].
    intros [= <-] Hne. apply lookup_insert_ne, Hne.
  - intros [= <-] Hne. apply lookup_delete_ne, Hne.
Qed.

(** X2: whatever the form holds and whatever the store answers, a submission
    leaves every document untouched except the one it addresses: the edit
    target when an edit is open, the created document otherwise. *)
Theorem submit_touches_one_document (j : string) :
  (if editing (ui w) then default "" (editingId (ui w)) else Firestore.newId r) <> j ->
  docs (handleSubmit now r w) !! j = docs w !! j.
Proof.
  intros Hne.
  destruct handleSubmit_validity as [Hinv | [Hn Hc]].
  - rewrite (handleSubmit_invalid now r w Hinv). reflexivity.
  - rewrite (handleSubmit_valid Hn Hc).
    destruct (Firestore.exec r request (docs w)) as [docs' |] eqn:Hexec;
      [| reflexivity].
    cbn [docs]. apply (exec_other request _ _ j Hexec).
    subst request. destruct (editing (ui w)); exact Hne.
Qed.

(** A submission leaves the session as it is. *)
Lemma handleSubmit_session :
  userId (ui (handleSubmit now r w)) = userId (ui w)
  /\ isAuthReady (ui (handleSubmit now r w)) = isAuthReady (ui w).
Proof.
  destruct handleSubmit_validity as [Hinv | [Hn Hc]].
  - rewrite (handleSubmit_invalid now r w Hinv). split; reflexivity.
  - rewrite (handleSubmit_valid Hn Hc).
    destruct (Firestore.exec r request (docs w)); split; reflexivity.
Qed.

(** X3: in a signed-in session whose snapshot listener is open, a valid
    form with no edit open, accepted by the store under a fresh identifier,
    comes back with the next snapshot as one more item of the list,
    carrying the name, the parsed cost and the cycle of the form; the
    submission leaves the session as it is, so the listener reads the
    collection the record was written to. *)
Theorem created_record_is_listed (initialAuthToken : option string) :
  Session.listening (ui w) = true ->
  formName (ui w) <> "" ->
  Js.truthy (formCost (ui w)) = true ->
  editing (ui w) = false ->
  Firestore.accepted r = true ->
  docs w !! Firestore.newId r = None ->
  let w' := Ui.step initialAuthToken Ui.Snapshot (handleSubmit now r w) in
  {| id := Firestore.newId r;
     name := formName (ui w);
     cost := Js.parseFloat (formCost (ui w));
     cycle := formCycle (ui w);
     createdAt := now |} ∈ subscriptions (ui w')
  /\ length (subscriptions (ui w')) = S (size (docs w))
  /\ issued w' = issued w ++ [Firestore.AddDoc candidate]
  /\ userId (ui (handleSubmit now r w)) = userId (ui w)
  /\ Session.listening (ui (handleSubmit now r w)) = true.
Proof.
  intros Hl Hn Hc Hed Hacc Hfresh. apply truthy_string_nonempty in Hn. cbn zeta.
  destruct handleSubmit_session as [Huser Hready].
  assert (Hl' : Session.listening (ui (handleSubmit now r w)) = true).
  { unfold Session.listening in *. rewrite Huser, Hready. exact Hl. }
  unfold Ui.step. rewrite Hl'.
  split; [| split; [| split; [| split; [exact Huser | reflexivity]]]];
    rewrite (handleSubmit_valid Hn Hc); subst request; rewrite Hed;
    unfold Firestore.exec; rewrite Hacc; cbn [negb];
    unfold deliverSnapshot, receiveSnapshot, onSnapshot, subscriptionsList;
    cbn [ui docs issued with_ui subscriptions setSubscriptions setTotalMonthlyCost
           setTotalYearlyCost].
  - apply list_elem_of_fmap.
    exists (Firestore.newId r, candidate). split; [reflexivity |].
    apply elem_of_map_to_list, lookup_insert_eq.
  - rewrite length_fmap, length_map_to_list.
    apply map_size_insert_None, Hfresh.
  - reflexivity.
Qed.

End Store.

Section Listing.

Import App.

(** The item the listener builds for the document [d] stored under [i]. *)
Let item (i : string) (d : Firestore.docData) : subscription :=
  {| id := i; name := Firestore.name d; cost := Firestore.cost d;
     cycle := Firestore.cycle d; createdAt := Firestore.createdAt d |}.

Lemma subscriptionsList_ids (ds : gmap string Firestore.docData) :
  id <$> subscriptionsList ds = (map_to_list ds).*1.
Proof.
  unfold subscriptionsList. rewrite <- list_fmap_compose.
  apply list_fmap_ext. intros _ [i d] _. reflexivity.
Qed.

(** X4: the list the listener builds mirrors the collection: an item is in
    the list exactly when its document is stored under its id with the same
    four fields, no id occurs twice, and there are as many items as
    documents. *)
Theorem list_mirrors_collection (ds : gmap string Firestore.docData) :
  (forall sub : subscription,
      sub ∈ subscriptionsList ds
      <-> ds !! id sub
          = Some {| Firestore.name := name sub; Firestore.cost := cost sub;
                    Firestore.cycle := cycle sub;
                    Firestore.createdAt := createdAt sub |})
  /\ NoDup (id <$> subscriptionsList ds)
  /\ length (subscriptionsList ds) = size ds.
Proof.
  split; [| split].
  - intros sub. unfold subscriptionsList. rewrite list_elem_of_fmap. split.
    + intros ([i d] & -> & Hin). apply elem_of_map_to_list in Hin.
      cbn. rewrite Hin. destruct d; reflexivity.
    + intros Hsome.
      exists (id sub, {| Firestore.name := name sub; Firestore.cost := cost sub;
                         Firestore.cycle := cycle sub;
                         Firestore.createdAt := createdAt sub |}).
      split; [destruct sub; reflexivity | apply elem_of_map_to_list, Hsome].
  - rewrite subscriptionsList_ids. apply NoDup_fst_map_to_list.
  - unfold subscriptionsList. rewrite length_fmap. apply length_map_to_list.
Qed.

(** X5: a stored record whose cost is a number other than zero, opened for
    editing and submitted as it stands, is stored again with the same name,
    cost and cycle. *)
Theorem edit_unchanged_keeps_fields (now : Z) (r : Firestore.reply) (w : world)
    (i : string) (d : Firestore.docData) :
  docs w !! i = Some d ->
  i <> "" ->
  Firestore.name d <> "" ->
  Js.truthy_number (Firestore.cost d) = true ->
  Firestore.accepted r = true ->
  let w' := handleSubmit now r (clickEdit (item i d) w) in
  exists d' : Firestore.docData,
    docs w' !! i = Some d'
    /\ Firestore.name d' = Firestore.name d
    /\ Firestore.cost d' = Firestore.cost d
    /\ Firestore.cycle d' = Firestore.cycle d
    /\ issued w' = issued w ++ [Firestore.UpdateDoc i d'].
Proof.
  intros Hd Hi Hn Hc Hacc. cbn zeta.
  assert (Hcost : Js.parseFloat (Js.VNum (Firestore.cost d)) = Firestore.cost d).
  { unfold Js.truthy_number in Hc. cbn [Js.parseFloat].
    destruct (PrimFloat.eqb (Firestore.cost d) 0); [discriminate | reflexivity]. }
  rewrite handleSubmit_valid;
    [| apply truthy_string_nonempty; exact Hn | exact Hc].
  assert (Hed : editing (ui (clickEdit (item i d) w)) = true).
  { apply (editing_target _ i); [reflexivity | exact Hi]. }
  rewrite Hed. cbn [clickEdit with_ui ui docs issued startEdit editingId formName
                      formCost formCycle setEditingId setFormCycle setFormCost
                      setFormName item id name cost cycle default from_option
                      Datatypes.id].
  unfold Firestore.exec. rewrite Hacc, Hd. cbn [negb docs issued].
  eexists. split; [apply lookup_insert_eq |].
  cbn [Firestore.name Firestore.cost Firestore.cycle]. rewrite Hcost.
  repeat split; reflexivity.
Qed.

(** X6: a delete request is sent whatever happens next and never touches the
    form, the list or the totals; accepted, it removes the document and no
    other and reports success; rejected, it leaves the collection as it was
    and reports the failure. Either way [loading] ends off. *)
Theorem delete_removes_one_document (i : string) (r : Firestore.reply) (w : world) :
  let w' := handleDelete i r w in
  issued w' = issued w ++ [Firestore.DeleteDoc i]
  /\ loading (ui w') = false
  /\ (formName (ui w'), formCost (ui w'), formCycle (ui w'), editingId (ui w'))
     = (formName (ui w), formCost (ui w), formCycle (ui w), editingId (ui w))
  /\ (subscriptions (ui w'), totalMonthlyCost (ui w'), totalYearlyCost (ui w'))
     = (subscriptions (ui w), totalMonthlyCost (ui w), totalYearlyCost (ui w))
  /\ (if Firestore.accepted r
      then docs w' !! i = None
           /\ (forall j, j <> i -> docs w' !! j = docs w !! j)
           /\ message (ui w') = "Subscription deleted successfully!"
           /\ error (ui w') = ""
      else docs w' = docs w
           /\ error (ui w') = "Failed to delete subscription. Please try again."
           /\ message (ui w') = message (ui w)).
Proof.
  cbn zeta. rewrite handleDelete_eq. unfold Firestore.exec.
  destruct (Firestore.accepted r); cbn; repeat split.
  - apply lookup_delete_eq.
  - intros j Hne. apply lookup_delete_ne. congruence.
Qed.

(** X7: when the collection holds a single document, deleting it and
    receiving the next snapshot empties the list, brings both totals back to
    [0], shows the empty-list note and hides the report section. *)
Theorem delete_last_document (i : string) (d : Firestore.docData)
    (r : Firestore.reply) (w : world) :
  docs w = {[ i := d ]} ->
  Firestore.accepted r = true ->
  let w' := deliverSnapshot (handleDelete i r w) in
  docs w' = ∅
  /\ subscriptions (ui w') = []
  /\ totalMonthlyCost (ui w') = 0%float
  /\ totalYearlyCost (ui w') = 0%float
  /\ View.emptyNoteShown (ui w') = true
  /\ View.reportSectionShown (ui w') = false.
Proof.
  intros Hdocs Hacc. cbn zeta. rewrite handleDelete_eq. unfold Firestore.exec.
  rewrite Hacc, Hdocs. cbn [negb].
  rewrite delete_singleton_eq.
  unfold deliverSnapshot, receiveSnapshot, subscriptionsList. cbn [docs ui with_ui].
  rewrite map_to_list_empty. repeat split.
Qed.

End Listing.

(** ** More on the report *)

Section ReportStored.

Import App.

(** The text the [try] block obtains passed the test [if (text)]. *)
Lemma reportText_truthy (outcome : option Http.response) (text : Http.json) :
  reportText outcome = Some text ->
  exists response result,
    outcome = Some response
    /\ Http.ok response = true
    /\ Http.body response = Some result
    /\ Http.text_of result = Some text
    /\ Http.truthy (Some text) = true.
Proof.
  unfold reportText. destruct outcome as [response |]; [| discriminate].
  destruct (Http.ok response) eqn:Hok; cbn [negb]; [| discriminate].
  destruct (Http.body response) as [result |] eqn:Hbody; [| discriminate].
  destruct (Http.truthy (Http.text_of result)) eqn:Htruthy; [| discriminate].
  intros Htext. exists response, result. rewrite <- Htext. auto.
Qed.

(** X8: a report is stored only from a response with a status from 200 to
    299 whose body holds a truthy value at
    [candidates[0].content.parts[0].text]; that value is what is stored, and
    no error is set. *)
Theorem report_stored_only_from_success (outcome : option Http.response)
    (st : state) (text : Http.json) :
  geminiResponse (generateGeminiReport outcome st) = Some text ->
  exists response result,
    outcome = Some response
    /\ (200 <= Http.status response <= 299)
    /\ Http.body response = Some result
    /\ Http.text_of result = Some text
    /\ Http.truthy (Some text) = true
    /\ error (generateGeminiReport outcome st) = "".
Proof.
  unfold generateGeminiReport, generateGeminiReport_finish.
  destruct (reportText outcome) as [t |] eqn:Hreport; cbn; [| discriminate].
  intros [= ->].
  destruct (reportText_truthy outcome text Hreport)
    as (response & result & Hout & Hok & Hbody & Htext & Htruthy).
  exists response, result. unfold Http.ok in Hok.
  apply andb_true_iff in Hok as [Hlo Hhi].
  apply Z.leb_le in Hlo. apply Z.leb_le in Hhi. auto 10.
Qed.

(** X9: a 2xx response whose body has the expected shape, with a non-empty
    string as its text, stores that string as it is, whatever report or
    message was there before; no error is set and [loading] ends off. Other
    properties of the objects along the path do not matter. *)
Theorem report_success_verbatim (st : state) (response : Http.response)
    (fields candidate content part : list (string * Http.json))
    (candidates parts : list Http.json) (text : string) :
  200 <= Http.status response <= 299 ->
  Http.body response = Some (Http.JObj fields) ->
  Http.assoc "candidates" fields = Some (Http.JArr (Http.JObj candidate :: candidates)) ->
  Http.assoc "content" candidate = Some (Http.JObj content) ->
  Http.assoc "parts" content = Some (Http.JArr (Http.JObj part :: parts)) ->
  Http.assoc "text" part = Some (Http.JStr text) ->
  text <> "" ->
  generateGeminiReport (Some response) st
  = setLoading false
      (setGeminiResponse (Some (Http.JStr text)) (generateGeminiReport_start st))
  /\ geminiResponse (generateGeminiReport (Some response) st) = Some (Http.JStr text)
  /\ error (generateGeminiReport (Some response) st) = ""
  /\ message (generateGeminiReport (Some response) st) = ""
  /\ loading (generateGeminiReport (Some response) st) = false.
Proof.
  intros [Hlo Hhi] Hbody Hcands Hcontent Hparts Htext Hne.
  assert (Hreport : reportText (Some response) = Some (Http.JStr text)).
  { unfold reportText, Http.ok.
    apply Z.leb_le in Hlo. apply Z.leb_le in Hhi. rewrite Hlo, Hhi, Hbody.
    cbn [andb negb]. unfold Http.text_of.
    cbn [Http.chain Http.member Http.first]. rewrite Hcands.
    cbn [Http.chain Http.member Http.first]. rewrite Hcontent.
    cbn [Http.chain Http.member Http.first]. rewrite Hparts.
    cbn [Http.chain Http.member Http.first]. rewrite Htext.
    cbn [Http.truthy]. rewrite (truthy_string_nonempty text Hne). reflexivity. }
  unfold generateGeminiReport, generateGeminiReport_finish. rewrite Hreport.
  repeat split.
Qed.

(** X10: while the request for a report is on its way the text beside the
    spinner is ["Loading..."]: the stored report was cleared first, so the
    wording for a new report never shows for a report. *)
Theorem report_pending_text (st : state) :
  View.loadingText (generateGeminiReport_start st) = Some "Loading..."
  /\ View.loadingText (generateGeminiReport_start st)
     <> Some "Generating a new report...".
Proof. split; [reflexivity | discriminate]. Qed.

End ReportStored.

(** ** The session *)

Section SessionFacts.

Import App.

Lemma uidOrAnonymous_nonempty (current : option string) :
  Session.uidOrAnonymous current <> "".
Proof.
  unfold Session.uidOrAnonymous, Js.truthy_string.
  destruct current as [uid |]; [| discriminate].
  destruct (String.eqb_spec uid ""); cbn [negb]; [discriminate | assumption].
Qed.

Lemma authListener_runs (initialAuthToken user : option string)
    (svc : Session.service) (st : state) :
  user <> None \/ Session.resolves svc = true ->
  Session.authListener initialAuthToken user svc st
  = Session.setIsAuthReady true
      (Session.setUserId (Some (Session.uidOrAnonymous (Session.currentUser svc))) st).
Proof.
  intros Hrun. unfold Session.authListener, Session.requested.
  destruct user as [uid |]; [reflexivity |].
  destruct Hrun as [Hnone | Hres]; [contradiction |]. rewrite Hres.
  destruct initialAuthToken as [token |]; [destruct (Js.truthy_string token) |];
    reflexivity.
Qed.

Lemma authListener_rejected (initialAuthToken : option string)
    (svc : Session.service) (st : state) :
  Session.resolves svc = false ->
  Session.authListener initialAuthToken None svc st = st.
Proof.
  intros Hrej. unfold Session.authListener, Session.requested. rewrite Hrej.
  destruct initialAuthToken as [token |]; [destruct (Js.truthy_string token) |];
    reflexivity.
Qed.

(** X11: when the auth listener runs through (there is a user, or the
    sign-in it awaits resolves), the session is ready and [userId] is a
    non-empty string: the uid of the current user, or ['anonymous'] when
    there is none; so the guard of the snapshot effect holds. Nothing else
    of the state changes. When the sign-in rejects, nothing changes at
    all. *)
Theorem auth_listener_ready (initialAuthToken user : option string)
    (svc : Session.service) (st : state) :
  let st' := Session.authListener initialAuthToken user svc st in
  (user <> None \/ Session.resolves svc = true ->
   isAuthReady st' = true
   /\ userId st' = Some (Session.uidOrAnonymous (Session.currentUser svc))
   /\ (forall uid, Session.currentUser svc = Some uid -> uid <> "" ->
       userId st' = Some uid)
   /\ (Session.currentUser svc = None -> userId st' = Some "anonymous")
   /\ Session.listening st' = true
   /\ st' = Session.setIsAuthReady true (Session.setUserId (userId st') st))
  /\ (user = None -> Session.resolves svc = false -> st' = st).
Proof.
  cbn zeta. split.
  - intros Hrun. rewrite (authListener_runs _ _ _ _ Hrun). cbn. repeat split.
    + intros uid -> Hne. unfold Session.uidOrAnonymous.
      rewrite (truthy_string_nonempty uid Hne). reflexivity.
    + intros ->. reflexivity.
    + unfold Session.listening. cbn.
      apply truthy_string_nonempty, uidOrAnonymous_nonempty.
  - intros -> Hrej. apply authListener_rejected, Hrej.
Qed.

End SessionFacts.

(** ** Costs that are not numbers *)

Section NotANumber.

Import App.

Lemma is_nan_nan (x : float) : PrimFloat.is_nan x = true -> x = nan.
Proof.
  unfold PrimFloat.is_nan. rewrite FloatAxioms.eqb_spec. intros H.
  apply Prim2SF_inj. change (Prim2SF nan) with S754_nan.
  destruct (Prim2SF x) as [s | s | | s m e]; try reflexivity; exfalso;
    unfold SFeqb, SFcompare in H.
  - discriminate H.
  - destruct s; discriminate H.
  - rewrite Z.compare_refl, Pos.compare_refl in H. destruct s; discriminate H.
Qed.

Lemma add_nan_r (x : float) : (x + nan)%float = nan.
Proof.
  apply Prim2SF_inj. rewrite add_spec. change (Prim2SF nan) with S754_nan.
  destruct (Prim2SF x); reflexivity.
Qed.

Lemma add_nan_l (x : float) : (nan + x)%float = nan.
Proof.
  apply Prim2SF_inj. rewrite add_spec. change (Prim2SF nan) with S754_nan.
  reflexivity.
Qed.

Lemma div_nan_l (x : float) : (nan / x)%float = nan.
Proof.
  apply Prim2SF_inj. rewrite div_spec. change (Prim2SF nan) with S754_nan.
  reflexivity.
Qed.

Lemma mul_nan_l (x : float) : (nan * x)%float = nan.
Proof.
  apply Prim2SF_inj. rewrite mul_spec. change (Prim2SF nan) with S754_nan.
  reflexivity.
Qed.

(** A round of the loop on a cost that is [NaN] leaves [NaN] in both
    totals. *)
Lemma forEach_body_nan_cost (totals : float * float) (sub : subscription) :
  cost sub = nan -> forEach_body totals sub = (nan, nan).
Proof.
  intros H. unfold forEach_body. rewrite H.
  destruct (String.eqb (cycle sub) "yearly"); [| destruct (String.eqb (cycle sub) "monthly")];
    rewrite ?div_nan_l, ?mul_nan_l, !add_nan_r; reflexivity.
Qed.

(** Once both totals are [NaN] they stay so. *)
Lemma fold_forEach_body_nan (subs : list subscription) :
  fold_left forEach_body subs (nan, nan) = (nan, nan).
Proof.
  induction subs as [| sub subs IH]; [reflexivity |].
  cbn [fold_left]. unfold forEach_body at 2. cbn [fst snd].
  destruct (String.eqb (cycle sub) "yearly"); [| destruct (String.eqb (cycle sub) "monthly")];
    rewrite !add_nan_l; exact IH.
Qed.

(** X12: a single subscription whose cost is [NaN] turns both totals into
    [NaN], wherever it stands in the list and whatever the others are; the
    view then shows NaN for both. *)
Theorem nan_cost_spoils_totals (subs : list subscription) (sub : subscription)
    (st : state) :
  sub ∈ subs ->
  PrimFloat.is_nan (cost sub) = true ->
  calculatedTotals subs = (nan, nan)
  /\ shownMonthly (onSnapshot subs st) = Some "NaN"
  /\ shownYearly (onSnapshot subs st) = Some "NaN".
Proof.
  intros Hin Hnan. apply is_nan_nan in Hnan.
  assert (Htotals : calculatedTotals subs = (nan, nan)).
  { apply list_elem_of_split in Hin as (before & after & ->).
    unfold calculatedTotals. rewrite fold_left_app. cbn [fold_left].
    rewrite (forEach_body_nan_cost _ sub Hnan). apply fold_forEach_body_nan. }
  split; [exact Htotals |].
  unfold shownMonthly, shownYearly, onSnapshot.
  cbn [totalMonthlyCost totalYearlyCost setTotalYearlyCost setTotalMonthlyCost].
  rewrite Htotals. split; reflexivity.
Qed.

(** A cost text that does not begin with a number passes the validation and
    is parsed to [NaN]. *)
Example parseFloat_not_a_number :
  Js.truthy (Js.VStr "abc") = true /\ Js.parseFloat (Js.VStr "abc") = nan.
Proof. split; reflexivity. Qed.

End NotANumber.

(** ** What every run of the component keeps *)

Section Runs.

Import App.

Variable initialAuthToken : option string.

Lemma truthy_string_true (s : string) : Js.truthy_string s = true -> s <> "".
Proof.
  unfold Js.truthy_string. destruct (String.eqb_spec s ""); [discriminate | auto].
Qed.

(** An accepted request keeps a collection of well-formed records so. *)
Lemma exec_formed (r : Firestore.reply) (op : Firestore.write)
    (ds ds' : gmap string Firestore.docData) :
  map_Forall (fun _ d => Ui.formed d) ds ->
  from_option Ui.formed True (Ui.payload op) ->
  Firestore.exec r op ds = Some ds' ->
  map_Forall (fun _ d => Ui.formed d) ds'.
Proof.
  intros Hds Hop. unfold Firestore.exec.
  destruct (Firestore.accepted r); cbn [negb]; [| discriminate].
  destruct op as [data | i data | i]; cbn in Hop.
  - intros [= <-]. apply map_Forall_insert_2; assumption.
  - destruct (ds !! i); [| discriminate].
    intros [= <-]. apply map_Forall_insert_2; assumption.
  - intros [= <-]. apply map_Forall_delete, Hds.
Qed.

Lemma settled_initial : Ui.settled Sample.emptyWorld.
Proof.
  constructor; cbn; auto.
  - apply map_Forall_empty.
  - discriminate.
Qed.

Lemma settled_submit (now : Z) (r : Firestore.reply) (w : world) :
  Ui.settled w -> Ui.settled (handleSubmit now r w).
Proof.
  intros [Hs Hi Hl Hf Ht Hr Hg Hu].
  destruct (handleSubmit_validity w) as [Hinv | [Hn Hc]].
  - rewrite (handleSubmit_invalid now r w Hinv). constructor; assumption.
  - rewrite (handleSubmit_valid now r w Hn Hc).
    set (request := if editing (ui w) then _ else _).
    assert (Hreq : from_option Ui.formed True (Ui.payload request)).
    { subst request. destruct (editing (ui w)); cbn;
        (split; [apply truthy_string_true, Hn | exact Hf]). }
    assert (Hissued : Forall (fun op => from_option Ui.formed True (Ui.payload op))
                        (issued w ++ [request])).
    { apply Forall_app. split; [exact Hi | repeat constructor; exact Hreq]. }
    destruct (Firestore.exec r request (docs w)) as [docs' |] eqn:Hexec;
      constructor; cbn; auto.
    eapply exec_formed; eassumption.
Qed.

Lemma settled_delete (i : string) (r : Firestore.reply) (w : world) :
  Ui.settled w -> Ui.settled (handleDelete i r w).
Proof.
  intros [Hs Hi Hl Hf Ht Hr Hg Hu]. rewrite handleDelete_eq.
  assert (Hissued : Forall (fun op => from_option Ui.formed True (Ui.payload op))
                      (issued w ++ [Firestore.DeleteDoc i])).
  { apply Forall_app. split; [exact Hi | repeat constructor]. }
  destruct (Firestore.exec r (Firestore.DeleteDoc i) (docs w)) as [docs' |] eqn:Hexec;
    constructor; cbn; auto.
  eapply exec_formed; [exact Hs | | exact Hexec]. exact I.
Qed.

Lemma settled_snapshot (w : world) :
  Ui.settled w -> Ui.settled (deliverSnapshot w).
Proof.
  intros [Hs Hi Hl Hf Ht Hr Hg Hu].
  unfold deliverSnapshot, receiveSnapshot, onSnapshot.
  constructor;
    cbn [ui docs issued with_ui subscriptions totalMonthlyCost totalYearlyCost
           formCycle loading geminiResponse isAuthReady userId setSubscriptions
           setTotalMonthlyCost setTotalYearlyCost];
    auto.
  - unfold subscriptionsList. apply Forall_fmap.
    apply map_Forall_to_list in Hs. eapply Forall_impl; [exact Hs |].
    intros [i d] Hd. exact Hd.
  - symmetry. apply surjective_pairing.
Qed.

Lemma settled_report (outcome : option Http.response) (w : world) :
  Ui.settled w -> Ui.settled (clickReport outcome w).
Proof.
  intros [Hs Hi Hl Hf Ht Hr Hg Hu].
  unfold clickReport, generateGeminiReport, generateGeminiReport_finish.
  destruct (reportText outcome) as [text |] eqn:Hreport; constructor; cbn; auto.
  right. destruct (reportText_truthy outcome text Hreport) as (? & ? & ? & ? & ? & ? & H).
  exact H.
Qed.

Lemma settled_auth (user : option string) (svc : Session.service) (w : world) :
  Ui.settled w ->
  Ui.settled (with_ui (Session.authListener initialAuthToken user svc (ui w)) w).
Proof.
  intros [Hs Hi Hl Hf Ht Hr Hg Hu].
  assert (Hcases : (user <> None \/ Session.resolves svc = true)
                   \/ (user = None /\ Session.resolves svc = false)).
  { destruct user; [left; left; discriminate |].
    destruct (Session.resolves svc); auto. }
  destruct Hcases as [Hrun | [-> Hrej]].
  - rewrite (authListener_runs _ _ _ _ Hrun). constructor; cbn; auto.
    intros _. eexists. split; [reflexivity | apply uidOrAnonymous_nonempty].
  - rewrite (authListener_rejected _ _ _ Hrej). constructor; assumption.
Qed.

(** Every event leaves the component settled. *)
Lemma settled_step (e : Ui.event) (w : world) :
  Ui.settled w -> Ui.settled (Ui.step initialAuthToken e w).
Proof.
  intros Hw. destruct e as [user svc | text | text | o | now r | n | n r | | outcome | |];
    cbn [Ui.step].
  - apply settled_auth, Hw.
  - destruct Hw. constructor; assumption.
  - destruct Hw. constructor; assumption.
  - destruct Hw. constructor; cbn; auto. destruct o; auto.
  - destruct (View.submitDisabled (ui w)); [exact Hw | apply settled_submit, Hw].
  - destruct (subscriptions (ui w) !! n) as [sub |] eqn:Hn; [| exact Hw].
    destruct Hw as [Hs Hi Hl Hf Ht Hr Hg Hu]. constructor; cbn; auto.
    apply (Forall_lookup_1 _ _ _ _ Hl Hn).
  - destruct (subscriptions (ui w) !! n) as [sub |]; [apply settled_delete |]; exact Hw.
  - destruct (View.cancelShown (ui w)); [| exact Hw].
    destruct Hw. constructor; cbn; auto.
  - destruct (View.reportSectionShown (ui w) && negb (View.reportDisabled (ui w)));
      [apply settled_report |]; exact Hw.
  - destruct (Session.listening (ui w)); [apply settled_snapshot |]; exact Hw.
  - destruct (Session.listening (ui w)); [| exact Hw].
    destruct Hw. constructor; assumption.
Qed.

Lemma settled_run (events : list Ui.event) :
  forall w : world, Ui.settled w -> Ui.settled (Ui.run initialAuthToken events w).
Proof.
  induction events as [| e events IH]; intros w Hw; [exact Hw |].
  apply IH, settled_step, Hw.
Qed.

End Runs.

Section RunFacts.

Import App.

Variable initialAuthToken : option string.
Variable events : list Ui.event.
Variable start : world.
Hypothesis start_settled : Ui.settled start.

Let final : world := Ui.run initialAuthToken events start.



(** X15: after every run [loading] is off: each handler that turns it on
    turns it off again on every path, so the spinner is gone and the submit
    and report buttons are enabled. *)
Theorem run_ends_idle :
  loading (ui final) = false
  /\ View.loadingText (ui final) = None
  /\ View.submitDisabled (ui final) = false
  /\ View.reportDisabled (ui final) = false.
Proof.
  destruct (settled_run initialAuthToken events start start_settled)
    as [_ _ _ _ _ Hr _ _].
  fold final in Hr.
  unfold View.loadingText, View.submitDisabled, View.reportDisabled.
  rewrite Hr. repeat split.
Qed.

(** X16: after every run a stored report is never a falsy value; when it
    is a string, as the text of the endpoint is, it is not empty and it is
    the child of the report paragraph whenever the list is not empty. *)
Theorem run_report_shown (text : Http.json) :
  geminiResponse (ui final) = Some text ->
  Http.truthy (Some text) = true
  /\ (forall s : string,
        text = Http.JStr s ->
        s <> ""
        /\ (subscriptions (ui final) <> [] ->
            shownReport (ui final) = Some (Http.JStr s))).
Proof.
  destruct (settled_run initialAuthToken events start start_settled)
    as [_ _ _ _ _ _ Hg _].
  fold final in Hg. intros Htext.
  assert (Htruthy : Http.truthy (Some text) = true).
  { destruct Hg as [Hg | Hg]; rewrite Htext in Hg; [discriminate | exact Hg]. }
  split; [exact Htruthy |].
  intros s ->. split; [apply truthy_string_true; exact Htruthy |].
  intros Hne. unfold shownReport.
  destruct (subscriptions (ui final)); [contradiction |].
  rewrite Htext, Htruthy. reflexivity.
Qed.

(** X17: after every run, a ready session has a non-empty [userId], so the
    guard of the snapshot effect holds as soon as [isAuthReady] does. *)
Theorem run_ready_listens :
  isAuthReady (ui final) = true ->
  Session.listening (ui final) = true
  /\ exists uid, userId (ui final) = Some uid /\ uid <> "".
Proof.
  destruct (settled_run initialAuthToken events start start_settled)
    as [_ _ _ _ _ _ _ Hu].
  fold final in Hu. intros Hready.
  destruct (Hu Hready) as (uid & Huid & Hne).
  split; [| exists uid; auto].
  unfold Session.listening. rewrite Hready, Huid.
  apply truthy_string_nonempty, Hne.
Qed.

End RunFacts.

Section Steps.

Import App.

Variable initialAuthToken : option string.

Lemma handleSubmit_list (now : Z) (r : Firestore.reply) (w : world) :
  subscriptions (ui (handleSubmit now r w)) = subscriptions (ui w)
  /\ totalMonthlyCost (ui (handleSubmit now r w)) = totalMonthlyCost (ui w)
  /\ totalYearlyCost (ui (handleSubmit now r w)) = totalYearlyCost (ui w).
Proof.
  destruct (handleSubmit_validity w) as [Hinv | [Hn Hc]].
  - rewrite (handleSubmit_invalid now r w Hinv). repeat split.
  - rewrite (handleSubmit_valid now r w Hn Hc).
    match goal with
    | |- context [Firestore.exec ?a ?b ?c] => destruct (Firestore.exec a b c)
    end; repeat split.
Qed.

Lemma handleDelete_list (i : string) (r : Firestore.reply) (w : world) :
  subscriptions (ui (handleDelete i r w)) = subscriptions (ui w)
  /\ totalMonthlyCost (ui (handleDelete i r w)) = totalMonthlyCost (ui w)
  /\ totalYearlyCost (ui (handleDelete i r w)) = totalYearlyCost (ui w).
Proof.
  rewrite handleDelete_eq.
  destruct (Firestore.exec r (Firestore.DeleteDoc i) (docs w)); repeat split.
Qed.

(** X18: only a submission and a click on Delete reach the store: every
    other event (typing, opening or cancelling an edit, asking for a report,
    a snapshot or its failure, a change of the signed-in user) sends no
    request and leaves the collection as it is. *)
Theorem only_submit_and_delete_write (e : Ui.event) (w : world) :
  (forall now r, e <> Ui.Submit now r) ->
  (forall n r, e <> Ui.ClickDelete n r) ->
  issued (Ui.step initialAuthToken e w) = issued w
  /\ docs (Ui.step initialAuthToken e w) = docs w.
Proof.
  intros Hsubmit Hdelete.
  destruct e as [user svc | text | text | o | now r | n | n r | | outcome | |];
    cbn [Ui.step]; try (split; reflexivity).
  - exfalso. exact (Hsubmit now r eq_refl).
  - destruct (subscriptions (ui w) !! n); split; reflexivity.
  - exfalso. exact (Hdelete n r eq_refl).
  - destruct (View.cancelShown (ui w)); split; reflexivity.
  - destruct (View.reportSectionShown (ui w) && negb (View.reportDisabled (ui w)));
      split; reflexivity.
  - destruct (Session.listening (ui w)); split; reflexivity.
  - destruct (Session.listening (ui w)); split; reflexivity.
Qed.

(** X19: the list on display and the two totals change only when a snapshot
    arrives: no other event, a submission or a delete included, alters them
    locally. *)
Theorem list_changes_only_by_snapshot (e : Ui.event) (w : world) :
  e <> Ui.Snapshot ->
  subscriptions (ui (Ui.step initialAuthToken e w)) = subscriptions (ui w)
  /\ totalMonthlyCost (ui (Ui.step initialAuthToken e w)) = totalMonthlyCost (ui w)
  /\ totalYearlyCost (ui (Ui.step initialAuthToken e w)) = totalYearlyCost (ui w).
Proof.
  intros Hsnap.
  destruct e as [user svc | text | text | o | now r | n | n r | | outcome | |];
    cbn [Ui.step]; try (repeat split; reflexivity).
  - unfold Session.authListener.
    destruct (Session.requested initialAuthToken user);
      [destruct (Session.resolves svc) |]; repeat split.
  - destruct (View.submitDisabled (ui w)); [repeat split | apply handleSubmit_list].
  - destruct (subscriptions (ui w) !! n); repeat split.
  - destruct (subscriptions (ui w) !! n); [apply handleDelete_list | repeat split].
  - destruct (View.cancelShown (ui w)); repeat split.
  - destruct (View.reportSectionShown (ui w) && negb (View.reportDisabled (ui w)));
      [| repeat split].
    unfold clickReport, generateGeminiReport, generateGeminiReport_finish.
    destruct (reportText outcome); repeat split.
  - contradiction.
  - destruct (Session.listening (ui w)); repeat split.
Qed.

End Steps.

(** ** The properties above on the sample data *)

Section Instances.

Import App.

Lemma submit_touches_one_document_witness :
  "a1" <> "b2"
  /\ docs (handleSubmit 5000 (Sample.accept "") (clickEdit Sample.netflix Sample.bothStored))
       !! "b2"
     = docs (clickEdit Sample.netflix Sample.bothStored) !! "b2".
Proof.
  assert (H : "a1" <> "b2") by discriminate.
  split; [exact H |].
  exact (submit_touches_one_document 5000 (Sample.accept "")
           (clickEdit Sample.netflix Sample.bothStored) "b2" H).
Defined.

Lemma created_record_is_listed_witness :
  Session.listening (ui Scenario.netflixTypedSignedIn) = true
  /\ formName (ui Scenario.netflixTypedSignedIn) <> ""
  /\ docs Scenario.netflixTypedSignedIn !! "a1" = None
  /\ Sample.netflix
     ∈ subscriptions
         (ui (Ui.step None Ui.Snapshot
                (handleSubmit 1000 (Sample.accept "a1") Scenario.netflixTypedSignedIn)))
  /\ length
       (subscriptions
          (ui (Ui.step None Ui.Snapshot
                 (handleSubmit 1000 (Sample.accept "a1") Scenario.netflixTypedSignedIn))))
     = 1%nat.
Proof.
  assert (Hl : Session.listening (ui Scenario.netflixTypedSignedIn) = true)
    by (vm_compute; reflexivity).
  assert (Hn : formName (ui Scenario.netflixTypedSignedIn) <> "")
    by (vm_compute; discriminate).
  assert (Hc : Js.truthy (formCost (ui Scenario.netflixTypedSignedIn)) = true)
    by (vm_compute; reflexivity).
  assert (Hed : editing (ui Scenario.netflixTypedSignedIn) = false)
    by (vm_compute; reflexivity).
  assert (Hfresh : docs Scenario.netflixTypedSignedIn !! "a1" = None)
    by (vm_compute; reflexivity).
  pose proof (created_record_is_listed 1000 (Sample.accept "a1")
                Scenario.netflixTypedSignedIn None Hl Hn Hc Hed eq_refl Hfresh) as H.
  cbv zeta in H. destruct H as (Hin & Hlen & _).
  split; [exact Hl | split; [exact Hn | split; [exact Hfresh |]]].
  split.
  - assert (Hsame :
      {| id := Firestore.newId (Sample.accept "a1");
         name := formName (ui Scenario.netflixTypedSignedIn);
         cost := Js.parseFloat (formCost (ui Scenario.netflixTypedSignedIn));
         cycle := formCycle (ui Scenario.netflixTypedSignedIn);
         createdAt := 1000 |} = Sample.netflix)
      by (vm_compute; reflexivity).
    rewrite <- Hsame. exact Hin.
  - rewrite Hlen. vm_compute. reflexivity.
Defined.

Lemma edit_unchanged_keeps_fields_witness :
  docs Sample.netflixStored !! "a1" = Some Scenario.netflixData
  /\ Js.truthy_number (Firestore.cost Scenario.netflixData) = true
  /\ exists d' : Firestore.docData,
       docs (handleSubmit 5000 (Sample.accept "")
               (clickEdit Sample.netflix Sample.netflixStored)) !! "a1" = Some d'
       /\ Firestore.name d' = "Netflix"
       /\ Firestore.cost d' = 500%float
       /\ Firestore.cycle d' = "monthly".
Proof.
  assert (Hd : docs Sample.netflixStored !! "a1" = Some Scenario.netflixData)
    by (vm_compute; reflexivity).
  assert (Hi : "a1" <> "") by discriminate.
  assert (Hn : Firestore.name Scenario.netflixData <> "") by (cbn; discriminate).
  split; [exact Hd | split; [reflexivity |]].
  destruct (edit_unchanged_keeps_fields 5000 (Sample.accept "") Sample.netflixStored
              "a1" Scenario.netflixData Hd Hi Hn eq_refl eq_refl)
    as (d' & Hd' & Hname & Hcost & Hcycle & _).
  exists d'. auto.
Defined.

Lemma delete_last_document_witness :
  docs Sample.netflixStored = {[ "a1" := Scenario.netflixData ]}
  /\ subscriptions
       (ui (deliverSnapshot (handleDelete "a1" (Sample.accept "") Sample.netflixStored)))
     = []
  /\ View.emptyNoteShown
       (ui (deliverSnapshot (handleDelete "a1" (Sample.accept "") Sample.netflixStored)))
     = true.
Proof.
  assert (Hd : docs Sample.netflixStored = {[ "a1" := Scenario.netflixData ]})
    by (vm_compute; reflexivity).
  pose proof (delete_last_document "a1" Scenario.netflixData (Sample.accept "")
                Sample.netflixStored Hd eq_refl) as H.
  cbn zeta in H. split; [exact Hd | split; apply H].
Defined.

Lemma report_stored_only_from_success_witness :
  geminiResponse (generateGeminiReport (Some Sample.goodReport) Sample.reported)
  = Some (Http.JStr "Cancel one.")
  /\ exists response result,
       Some Sample.goodReport = Some response
       /\ (200 <= Http.status response <= 299)
       /\ Http.body response = Some result
       /\ Http.text_of result = Some (Http.JStr "Cancel one.").
Proof.
  split; [reflexivity |].
  destruct (report_stored_only_from_success (Some Sample.goodReport) Sample.reported
              (Http.JStr "Cancel one.") eq_refl)
    as (response & result & Hout & Hok & Hbody & Htext & _).
  exists response, result. auto.
Defined.

Lemma report_success_verbatim_witness :
  200 <= Http.status Sample.goodReport <= 299
  /\ "Cancel one." <> ""
  /\ geminiResponse (generateGeminiReport (Some Sample.goodReport) Sample.reported)
     = Some (Http.JStr "Cancel one.")
  /\ error (generateGeminiReport (Some Sample.goodReport) Sample.reported) = "".
Proof.
  assert (Hs : 200 <= Http.status Sample.goodReport <= 299) by (cbn; lia).
  assert (Hne : "Cancel one." <> "") by discriminate.
  pose proof (report_success_verbatim Sample.reported Sample.goodReport
                _ _ _ _ [] [] "Cancel one." Hs eq_refl eq_refl eq_refl eq_refl eq_refl Hne)
    as H.
  split; [exact Hs | split; [exact Hne | split; apply H]].
Defined.

Lemma auth_listener_ready_witness :
  Session.resolves Scenario.signedIn = true
  /\ userId (Session.authListener None None Scenario.signedIn initialState) = Some "u-17"
  /\ Session.listening (Session.authListener None None Scenario.signedIn initialState)
     = true
  /\ Session.authListener None None Scenario.signInFails initialState = initialState.
Proof.
  pose proof (auth_listener_ready None None Scenario.signedIn initialState) as [Hrun _].
  pose proof (auth_listener_ready None None Scenario.signInFails initialState) as [_ Hrej].
  destruct (Hrun (or_intror eq_refl)) as (_ & Huid & _ & _ & Hlisten & _).
  split; [reflexivity |].
  split; [exact Huid | split; [exact Hlisten | exact (Hrej eq_refl eq_refl)]].
Defined.

Lemma nan_cost_spoils_totals_witness :
  Scenario.broken ∈ [Sample.netflix; Scenario.broken; Sample.prime]
  /\ PrimFloat.is_nan (cost Scenario.broken) = true
  /\ calculatedTotals [Sample.netflix; Scenario.broken; Sample.prime] = (nan, nan)
  /\ shownMonthly (onSnapshot [Sample.netflix; Scenario.broken; Sample.prime] initialState)
     = Some "NaN".
Proof.
  assert (Hin : Scenario.broken ∈ [Sample.netflix; Scenario.broken; Sample.prime])
    by (right; left).
  pose proof (nan_cost_spoils_totals _ Scenario.broken initialState Hin eq_refl) as H.
  split; [exact Hin | split; [reflexivity | split; apply H]].
Defined.



Lemma run_ends_idle_witness :
  Ui.settled Sample.emptyWorld
  /\ loading (ui Scenario.afterSession) = false
  /\ View.loadingText (ui Scenario.afterSession) = None.
Proof.
  pose proof (run_ends_idle None Scenario.session Sample.emptyWorld settled_initial) as H.
  cbv zeta in H. destruct H as (Hloading & Htext & _).
  unfold Scenario.afterSession.
  split; [exact settled_initial | split; [exact Hloading | exact Htext]].
Defined.

Lemma run_report_shown_witness :
  Ui.settled Sample.emptyWorld
  /\ geminiResponse (ui Scenario.afterReport) = Some (Http.JStr "Cancel one.")
  /\ subscriptions (ui Scenario.afterReport) <> []
  /\ shownReport (ui Scenario.afterReport) = Some (Http.JStr "Cancel one.").
Proof.
  unfold Scenario.afterReport.
  assert (Hg : geminiResponse (ui (Ui.run None Scenario.reportedSession Sample.emptyWorld))
               = Some (Http.JStr "Cancel one."))
    by (vm_compute; reflexivity).
  assert (Hne : subscriptions (ui (Ui.run None Scenario.reportedSession Sample.emptyWorld))
                <> [])
    by (vm_compute; discriminate).
  pose proof (run_report_shown None Scenario.reportedSession Sample.emptyWorld
                settled_initial (Http.JStr "Cancel one.")) as H.
  cbv zeta in H. destruct (H Hg) as [_ Hstring].
  destruct (Hstring "Cancel one." eq_refl) as [_ Hshown].
  split; [exact settled_initial | split; [exact Hg | split; [exact Hne | exact (Hshown Hne)]]].
Defined.

Lemma run_ready_listens_witness :
  Ui.settled Sample.emptyWorld
  /\ isAuthReady (ui Scenario.afterSession) = true
  /\ Session.listening (ui Scenario.afterSession) = true.
Proof.
  unfold Scenario.afterSession.
  assert (Hr : isAuthReady (ui (Ui.run None Scenario.session Sample.emptyWorld)) = true)
    by (vm_compute; reflexivity).
  pose proof (run_ready_listens None Scenario.session Sample.emptyWorld settled_initial)
    as H.
  cbv zeta in H. destruct (H Hr) as [Hlisten _].
  split; [exact settled_initial | split; [exact Hr | exact Hlisten]].
Defined.

Lemma only_submit_and_delete_write_witness :
  issued (Ui.step None (Ui.ClickEdit 0) Sample.bothStored) = issued Sample.bothStored
  /\ docs (Ui.step None (Ui.ClickEdit 0) Sample.bothStored) = docs Sample.bothStored.
Proof.
  apply (only_submit_and_delete_write None (Ui.ClickEdit 0) Sample.bothStored);
    intros; discriminate.
Defined.

Lemma list_changes_only_by_snapshot_witness :
  Ui.Submit 5000 (Sample.accept "c3") <> Ui.Snapshot
  /\ subscriptions
       (ui (Ui.step None (Ui.Submit 5000 (Sample.accept "c3"))
              (typeForm "Gym" "120" "monthly" Sample.bothStored)))
     = subscriptions (ui (typeForm "Gym" "120" "monthly" Sample.bothStored)).
Proof.
  assert (H : Ui.Submit 5000 (Sample.accept "c3") <> Ui.Snapshot) by discriminate.
  split; [exact H |].
  exact (proj1 (list_changes_only_by_snapshot None (Ui.Submit 5000 (Sample.accept "c3"))
                  (typeForm "Gym" "120" "monthly" Sample.bothStored) H)).
Defined.

End Instances.

(** ** Submissions in a row *)

Section Resubmission.

Import App.

(** X20: while an edit is open a submission never creates or removes a
    document: the collection keeps exactly the identifiers it had, whatever
    the store answers. *)
Theorem edit_never_creates (now : Z) (r : Firestore.reply) (w : world) :
  editing (ui w) = true ->
  dom (docs (handleSubmit now r w)) = dom (docs w).
Proof.
  intros Hed.
  destruct (handleSubmit_validity w) as [Hinv | [Hn Hc]].
  - rewrite (handleSubmit_invalid now r w Hinv). reflexivity.
  - rewrite (handleSubmit_valid now r w Hn Hc), Hed. unfold Firestore.exec.
    destruct (Firestore.accepted r); cbn [negb]; [| reflexivity].
    destruct (docs w !! default "" (editingId (ui w))) as [old |] eqn:Hold;
      [| reflexivity].
    cbn [docs]. rewrite dom_insert_L.
    apply subseteq_union_1_L, singleton_subseteq_l, elem_of_dom. eauto.
Qed.

Lemma edit_never_creates_witness :
  editing (ui Sample.netflixEditing) = true
  /\ dom (docs (handleSubmit 5000 (Sample.accept "zz") Sample.netflixEditing))
     = dom (docs Sample.netflixEditing).
Proof.
  split; [reflexivity |].
  exact (edit_never_creates 5000 (Sample.accept "zz") Sample.netflixEditing eq_refl).
Defined.

(** X21: a submission that created a record leaves the form empty, so a
    second submission right after it, with nothing typed in between, stops
    at the validation: it sends no request and changes no document. *)
Theorem resubmit_sends_nothing (now now' : Z) (r r' : Firestore.reply) (w : world) :
  formName (ui w) <> "" ->
  Js.truthy (formCost (ui w)) = true ->
  editing (ui w) = false ->
  Firestore.accepted r = true ->
  let w1 := handleSubmit now r w in
  let w2 := handleSubmit now' r' w1 in
  length (issued w1) = S (length (issued w))
  /\ issued w2 = issued w1
  /\ docs w2 = docs w1
  /\ error (ui w2) = "Please fill in both the name and cost.".
Proof.
  intros Hn Hc Hed Hacc. apply truthy_string_nonempty in Hn. cbn zeta.
  rewrite (handleSubmit_valid now r w Hn Hc), Hed.
  unfold Firestore.exec. rewrite Hacc. cbn [negb].
  rewrite handleSubmit_invalid by reflexivity.
  cbn [issued docs ui with_ui error setError].
  rewrite length_app. cbn [length]. repeat split. lia.
Qed.

Lemma resubmit_sends_nothing_witness :
  formName (ui Sample.netflixTyped) <> ""
  /\ issued (handleSubmit 1001 (Sample.accept "b2")
               (handleSubmit 1000 (Sample.accept "a1") Sample.netflixTyped))
     = issued (handleSubmit 1000 (Sample.accept "a1") Sample.netflixTyped)
  /\ error (ui (handleSubmit 1001 (Sample.accept "b2")
                  (handleSubmit 1000 (Sample.accept "a1") Sample.netflixTyped)))
     = "Please fill in both the name and cost.".
Proof.
  assert (Hn : formName (ui Sample.netflixTyped) <> "") by (cbn; discriminate).
  pose proof (resubmit_sends_nothing 1000 1001 (Sample.accept "a1") (Sample.accept "b2")
                Sample.netflixTyped Hn eq_refl eq_refl eq_refl) as H.
  cbv zeta in H. destruct H as (_ & Hissued & _ & Herror).
  split; [exact Hn | split; [exact Hissued | exact Herror]].
Defined.

End Resubmission.
